(** * Raspberry Pi board bring-up (hw/arm/raspi.c)

    A shallow embedding of the board identity table, the RAM size checks,
    the board revision word, the secondary-core boot blobs and the boot
    set-up routine of [hw/arm/raspi.c], followed by the properties proved
    about them.

    Conventions.  C integers are modelled as [Z]; where the C type is
    narrower than the mathematical result the wrap-around is written out
    ([wrap_int32], [wrap_uint64]).  [error_report(...); exit(1)] is the
    outcome [Exit1] carrying the reported reason.  The function-static
    [binfo] of [setup_boot] is a field of the process state [Proc], so that
    what one call leaves behind is what the next call finds. *)

From stdpp Require Import base gmap list strings.
From Stdlib Require Import ZArith Lia.

Local Open Scope Z_scope.

(** ** Host utilities used by the file *)

Module Units.
(** qemu/units.h *)
Definition KiB : Z := Z.shiftl 1 10.
Definition MiB : Z := Z.shiftl 1 20.
Definition GiB : Z := Z.shiftl 1 30.
End Units.
Export Units.

Definition wrap_uint64 (z : Z) : Z := z mod 2 ^ 64.

Definition wrap_int32 (z : Z) : Z := (z + 2 ^ 31) mod 2 ^ 32 - 2 ^ 31.

(** Scans bit positions [n-1], [n-2], ..., [0] and counts the clear bits
    met before the first set one. *)
Fixpoint clz_from (n : nat) (val : Z) : Z :=
  match n with
  | O => 0
  | S k => if Z.testbit val (Z.of_nat k) then 0 else 1 + clz_from k val
  end.

(** Modelled from the spec: [clz64] of qemu/host-utils.h is not part of the
    file.  Section 4.3 takes "the position of the highest set bit" of the
    RAM size in mebibytes, which the code writes [63 - clz64 (...)]: [clz64]
    is the number of leading zero bits of a 64-bit value, 64 for zero. *)
Definition clz64 (val : Z) : Z := clz_from 64 val.

(** Modelled from the spec: [is_power_of_2] of qemu/host-utils.h is not part
    of the file.  Section 4.2 rejects a value whose "bit pattern has more
    than one set bit"; this is the usual [value && !(value & (value - 1))]
    form, and [is_power_of_2_false_iff] relates it to the set bits. *)
Definition is_power_of_2 (value : Z) : bool :=
  if value =? 0 then false else Z.land value (value - 1) =? 0.

(** ** Addresses *)

Definition SMPBOOT_ADDR : Z := 0x300.
Definition MVBAR_ADDR : Z := 0x400.
Definition BOARDSETUP_ADDR : Z := MVBAR_ADDR + 0x20.
Definition FIRMWARE_ADDR_2 : Z := 0x8000.
Definition FIRMWARE_ADDR_3 : Z := 0x80000.
Definition SPINTABLE_ADDR : Z := 0xd8.

(** ** Board identity codes (C enumerations are integers) *)

Definition M_SONY_UK : Z := 0.
Definition M_EMBEST : Z := 2.

Definition C_BCM2835 : Z := 0.
Definition C_BCM2836 : Z := 1.
Definition C_BCM2837 : Z := 2.
Definition C_BCM2711 : Z := 3.

Definition T_2B : Z := 0x04.
Definition T_3B : Z := 0x08.
Definition T_4B : Z := 0x11.

Definition R_1_0 : Z := 0.
Definition R_1_1 : Z := 1.
Definition R_1_2 : Z := 2.
Definition R_1_3 : Z := 3.

(** The SoC type names come from hw/arm/bcm2836.h; only their identity
    matters here. *)
Inductive SocType := TYPE_BCM2836 | TYPE_BCM2837 | TYPE_BCM2838.

(** [processor_typename[]]: indexed by chip code, entry 0 is a hole (NULL). *)
Definition processor_typename : list (option SocType) :=
  [ None; Some TYPE_BCM2836; Some TYPE_BCM2837; Some TYPE_BCM2838 ].

Record BoardRev := {
  type : Z;
  revision : Z;
  chip : Z;
  manufacturer : Z
}.

Record BoardInfo := {
  board_id : Z;
  board_rev : BoardRev;
  ram_size_min : Z;
  ram_size_max : Z
}.

(** An array element without initialiser is zero-filled. *)
Definition board_zero : BoardInfo :=
  {| board_id := 0;
     board_rev := {| type := 0; revision := 0; chip := 0; manufacturer := 0 |};
     ram_size_min := 0;
     ram_size_max := 0 |}.

Definition bcm283x_boards : list BoardInfo :=
  [ board_zero;
    board_zero;
    {| board_id := 0xc43;
       board_rev := {| type := T_2B; revision := R_1_1;
                       chip := C_BCM2836; manufacturer := M_EMBEST |};
       ram_size_min := 1 * GiB;
       ram_size_max := 1 * GiB |};
    {| board_id := 0xc44;
       board_rev := {| type := T_3B; revision := R_1_2;
                       chip := C_BCM2837; manufacturer := M_SONY_UK |};
       ram_size_min := 1 * GiB;
       ram_size_max := 1 * GiB |};
    {| board_id := 0xc42;
       board_rev := {| type := T_4B; revision := R_1_1;
                       chip := C_BCM2711; manufacturer := M_SONY_UK |};
       ram_size_min := 1 * GiB;
       ram_size_max := 8 * GiB |} ].

(** [arr[i]] for a C array: defined inside the bounds only. *)
Definition index {A} (arr : list A) (i : Z) : option A :=
  if i <? 0 then None else arr !! Z.to_nat i.

(** The versions the machine entry points pass ([raspi2_init],
    [raspi3_init], [raspi4_init]). *)
Definition supported (version : Z) : Prop :=
  version = 2 \/ version = 3 \/ version = 4.

(** ** Outcomes *)

Inductive ErrorReport :=
| RamTooSmall (minimum : Z)
| RamTooLarge (maximum : Z)
| RamNotPowerOf2
| NoSdBus
| FirmwareLoadFailed (path : string).

(** [Done a]: the code ran to its end.  [Exit1 e]: [error_report] then
    [exit(1)].  [Abort]: an index outside an array or an [error_abort]
    failure, which the file treats as impossible. *)
Inductive outcome (A : Type) :=
| Done (a : A)
| Exit1 (e : ErrorReport)
| Abort.
Arguments Done {A} a.
Arguments Exit1 {A} e.
Arguments Abort {A}.

#[global] Instance outcome_ret : MRet outcome := fun A a => Done a.

#[global] Instance outcome_bind : MBind outcome := fun A B k c =>
  match c with
  | Done a => k a
  | Exit1 e => Exit1 e
  | Abort => Abort
  end.

Definition lift {A} (o : option A) : outcome A :=
  match o with Some a => Done a | None => Abort end.

(** ** RAM size checks and revision word ([raspi_init], first and middle part) *)

(** raspi.c lines 246-263: the three tests, in the order of the source. *)
Definition check_ram_size (b : BoardInfo) (ram_size : Z) : outcome unit :=
  if ram_size <? ram_size_min b then Exit1 (RamTooSmall (ram_size_min b))
  else if ram_size >? ram_size_max b then Exit1 (RamTooLarge (ram_size_max b))
  else if negb (is_power_of_2 ram_size) then Exit1 RamNotPowerOf2
  else Done tt.

(** raspi.c lines 281-285; [board_rev] is an [int]. *)
Definition board_rev_code (b : BoardInfo) (ram_size : Z) : Z :=
  wrap_int32
    (Z.lor (Z.lor (Z.lor (Z.lor
       (Z.shiftl (63 - clz64 (ram_size / MiB)) 20)
       (Z.shiftl (manufacturer (board_rev b)) 16))
       (Z.shiftl (chip (board_rev b)) 12))
       (Z.shiftl (type (board_rev b)) 4))
       (Z.shiftl (revision (board_rev b)) 0)).

(** ** Guest memory and ROM blobs *)

(** A registered ROM blob: a name, a guest physical address, bytes. *)
Record Rom := {
  rom_name : string;
  rom_addr : Z;
  rom_data : list Z
}.

(** The bytes of [n]-byte words as they lie in the host array, least
    significant byte first. *)
Fixpoint le_bytes (n : nat) (w : Z) : list Z :=
  match n with
  | O => []
  | S k => Z.land w 0xff :: le_bytes k (Z.shiftr w 8)
  end.

Definition bytes_of_words (width : nat) (ws : list Z) : list Z :=
  flat_map (le_bytes width) ws.

(** [sizeof] of an array of [width]-byte elements. *)
Definition sizeof_array (width : nat) (ws : list Z) : Z :=
  Z.of_nat width * Z.of_nat (length ws).

(** Modelled from the spec: [rom_add_blob_fixed] of hw/loader.h is not part
    of the file.  Section 4.4: the injector "emits fixed machine-code byte
    sequences and auxiliary data words into guest physical memory at fixed
    addresses"; the blob of [len] bytes is registered for address [addr]. *)
Definition rom_add_blob_fixed (name : string) (blob : list Z) (len : Z)
    (addr : Z) (roms : list Rom) : list Rom :=
  roms ++ [ {| rom_name := name; rom_addr := addr;
               rom_data := take (Z.to_nat len) blob |} ].

(** Guest physical memory, byte addressed. *)
Fixpoint write_bytes (addr : Z) (data : list Z) (mem : gmap Z Z) : gmap Z Z :=
  match data with
  | [] => mem
  | x :: rest => write_bytes (addr + 1) rest (<[addr := x]> mem)
  end.

(** Modelled from the spec: the copy of the registered blobs into guest
    memory is done by the external loader.  Section 3: the slot block is
    "initialized once at boot-image-load time"; each blob is copied to its
    address. *)
Definition rom_reset (roms : list Rom) (mem : gmap Z Z) : gmap Z Z :=
  foldl (fun m r => write_bytes (rom_addr r) (rom_data r) m) mem roms.

(** Reads [n] bytes at [addr] as one little-endian number; [None] when a
    byte is not mapped. *)
Fixpoint read_le (n : nat) (addr : Z) (mem : gmap Z Z) : option Z :=
  match n with
  | O => Some 0
  | S k =>
      lo ← mem !! addr;
      hi ← read_le k (addr + 1) mem;
      Some (Z.lor lo (Z.shiftl hi 8))
  end.

(** ** The boot descriptor *)

(** The functions whose addresses the descriptor can hold. *)
Inductive BoardSetupFn := fn_write_board_setup.
Inductive SecondaryBootFn := fn_write_smpboot | fn_write_smpboot64.
Inductive ResetHookFn := fn_reset_secondary.

Module BootInfo.
(** The fields of [struct arm_boot_info] (hw/arm/boot.h) that raspi.c
    assigns; a NULL function pointer is [None]. *)
Record arm_boot_info := {
  board_id : Z;
  ram_size : Z;
  nb_cpus : Z;
  board_setup_addr : Z;
  write_board_setup : option BoardSetupFn;
  secure_board_setup : bool;
  secure_boot : bool;
  smp_loader_start : Z;
  write_secondary_boot : option SecondaryBootFn;
  secondary_cpu_reset_hook : option ResetHookFn;
  entry : Z;
  firmware_loaded : bool
}.

(** A zero-filled descriptor: the content of a static object before its
    first use. *)
Definition zero : arm_boot_info :=
  {| board_id := 0; ram_size := 0; nb_cpus := 0;
     board_setup_addr := 0; write_board_setup := None;
     secure_board_setup := false; secure_boot := false;
     smp_loader_start := 0; write_secondary_boot := None;
     secondary_cpu_reset_hook := None;
     entry := 0; firmware_loaded := false |}.
End BootInfo.
Export BootInfo (arm_boot_info).

(** ** Secondary-core boot blobs *)

Definition smpboot : list Z :=
  [ 0xe1a0e00f;
    0xe3a0fe00 + Z.shiftr BOARDSETUP_ADDR 4;
    0xee100fb0;
    0xe7e10050;
    0xe59f5014;
    0xe320f001;
    0xe7953200;
    0xe3530000;
    0x0afffffb;
    0xe7853200;
    0xe12fff13;
    0x400000cc ].

(** The conditions of the two [QEMU_BUILD_BUG_ON] of [write_smpboot]: the
    build is refused when one of them is true. *)
Definition smpboot_overruns_mvbar : bool :=
  SMPBOOT_ADDR + sizeof_array 4 smpboot >? MVBAR_ADDR.

Definition boardsetup_misrelocated : bool :=
  negb (Z.land BOARDSETUP_ADDR 0xf =? 0) || (Z.shiftr BOARDSETUP_ADDR 4 >=? 0x100).

Definition write_smpboot (info : arm_boot_info) (roms : list Rom) : list Rom :=
  rom_add_blob_fixed "raspi_smpboot" (bytes_of_words 4 smpboot)
    (sizeof_array 4 smpboot) (BootInfo.smp_loader_start info) roms.

Definition smpboot64 : list Z :=
  [ 0xd2801b05;
    0xd53800a6;
    0x924004c6;
    0xd503205f;
    0xf86678a4;
    0xb4ffffc4;
    0xd2800000;
    0xd2800001;
    0xd2800002;
    0xd2800003;
    0xd61f0080 ].

Definition spintables : list Z := [ 0; 0; 0; 0 ].

Definition write_smpboot64 (info : arm_boot_info) (roms : list Rom) : list Rom :=
  let roms :=
    rom_add_blob_fixed "raspi_smpboot" (bytes_of_words 4 smpboot64)
      (sizeof_array 4 smpboot64) (BootInfo.smp_loader_start info) roms in
  rom_add_blob_fixed "raspi_spintables" (bytes_of_words 8 spintables)
    (sizeof_array 8 spintables) SPINTABLE_ADDR roms.

(** [cpu_set_pc (cs, info->smp_loader_start)]: the new program counter. *)
Definition reset_secondary (info : arm_boot_info) (pc : Z) : Z :=
  BootInfo.smp_loader_start info.

(** The call through [info->write_secondary_boot], as the loader makes it
    while it loads the images. *)
Definition call_write_secondary_boot (info : arm_boot_info) (roms : list Rom)
    : list Rom :=
  match BootInfo.write_secondary_boot info with
  | Some fn_write_smpboot => write_smpboot info roms
  | Some fn_write_smpboot64 => write_smpboot64 info roms
  | None => roms
  end.

(** ** Machine, process state and external collaborators *)

(** A firmware image given on the command line: its path and its size in
    bytes (the content is opaque to this file). *)
Record Image := {
  image_path : string;
  image_size : Z
}.

(** The fields of [MachineState] that raspi.c reads. *)
Record MachineState := {
  ram_size : Z;
  smp_cpus : Z;
  firmware : option Image
}.

(** What the SoC device answers once realized. *)
Record SocEnv := {
  vcram_size : Z;
  has_sd_bus : bool
}.

(** The properties [raspi_init] sets on the SoC object. *)
Record SocConfig := {
  soc_type : SocType;
  soc_ram : Z;
  enabled_cpus : Z;
  soc_board_rev : Z;
  sd_card_plugged : bool
}.

(** [&binfo]: the address of the one function-static descriptor. *)
Inductive BootInfoRef := addr_binfo.

(** A call of [arm_load_kernel]: the pointer it received, and (as a ghost
    record) the content the pointer had at that moment. *)
Record Handoff := {
  handed_ref : BootInfoRef;
  handed_content : arm_boot_info
}.

Record LoadedImage := {
  loaded_path : string;
  loaded_addr : Z;
  loaded_size : Z
}.

(** The state of the process that outlives a call of [setup_boot]: the
    static [binfo], the images placed so far and the calls made to the
    external loader. *)
Record Proc := {
  binfo : arm_boot_info;
  images : list LoadedImage;
  handoffs : list Handoff
}.

(** The process before any machine is built: static storage is zero. *)
Definition proc_start : Proc :=
  {| binfo := BootInfo.zero; images := []; handoffs := [] |}.

Definition deref (p : Proc) (r : BootInfoRef) : arm_boot_info :=
  match r with addr_binfo => binfo p end.

(** Modelled from the spec: [load_image_targphys] of hw/loader.h is not part
    of the file.  Section 4.7: loading fails "if the firmware image does not
    fit in the space between its load address and the end of usable RAM";
    the result is the image size, or -1 when the image is larger than
    [max_sz]. *)
Definition load_image_targphys (img : Image) (addr max_sz : Z)
    (imgs : list LoadedImage) : Z * list LoadedImage :=
  if image_size img >? max_sz then (-1, imgs)
  else (image_size img,
        imgs ++ [ {| loaded_path := image_path img; loaded_addr := addr;
                     loaded_size := image_size img |} ]).

(** Modelled from the spec: [arm_load_kernel] of hw/arm/boot.h is not part
    of the file.  Section 3: the descriptor is "consumed ... by the external
    loader"; the call is recorded with the pointer it was given. *)
Definition arm_load_kernel (r : BootInfoRef) (p : Proc) : Proc :=
  {| binfo := binfo p;
     images := images p;
     handoffs := handoffs p ++ [ {| handed_ref := r; handed_content := deref p r |} ] |}.

(** ** [setup_boot] *)

(** raspi.c lines 186-188. *)
Definition assign_board (bi : arm_boot_info) (id ram cpus : Z) : arm_boot_info :=
  {| BootInfo.board_id := id;
     BootInfo.ram_size := ram;
     BootInfo.nb_cpus := cpus;
     BootInfo.board_setup_addr := BootInfo.board_setup_addr bi;
     BootInfo.write_board_setup := BootInfo.write_board_setup bi;
     BootInfo.secure_board_setup := BootInfo.secure_board_setup bi;
     BootInfo.secure_boot := BootInfo.secure_boot bi;
     BootInfo.smp_loader_start := BootInfo.smp_loader_start bi;
     BootInfo.write_secondary_boot := BootInfo.write_secondary_boot bi;
     BootInfo.secondary_cpu_reset_hook := BootInfo.secondary_cpu_reset_hook bi;
     BootInfo.entry := BootInfo.entry bi;
     BootInfo.firmware_loaded := BootInfo.firmware_loaded bi |}.

(** raspi.c lines 197-200. *)
Definition assign_secure_setup (bi : arm_boot_info) : arm_boot_info :=
  {| BootInfo.board_id := BootInfo.board_id bi;
     BootInfo.ram_size := BootInfo.ram_size bi;
     BootInfo.nb_cpus := BootInfo.nb_cpus bi;
     BootInfo.board_setup_addr := BOARDSETUP_ADDR;
     BootInfo.write_board_setup := Some fn_write_board_setup;
     BootInfo.secure_board_setup := true;
     BootInfo.secure_boot := true;
     BootInfo.smp_loader_start := BootInfo.smp_loader_start bi;
     BootInfo.write_secondary_boot := BootInfo.write_secondary_boot bi;
     BootInfo.secondary_cpu_reset_hook := BootInfo.secondary_cpu_reset_hook bi;
     BootInfo.entry := BootInfo.entry bi;
     BootInfo.firmware_loaded := BootInfo.firmware_loaded bi |}.

(** raspi.c lines 205-211. *)
Definition assign_smp (bi : arm_boot_info) (version : Z) : arm_boot_info :=
  {| BootInfo.board_id := BootInfo.board_id bi;
     BootInfo.ram_size := BootInfo.ram_size bi;
     BootInfo.nb_cpus := BootInfo.nb_cpus bi;
     BootInfo.board_setup_addr := BootInfo.board_setup_addr bi;
     BootInfo.write_board_setup := BootInfo.write_board_setup bi;
     BootInfo.secure_board_setup := BootInfo.secure_board_setup bi;
     BootInfo.secure_boot := BootInfo.secure_boot bi;
     BootInfo.smp_loader_start := SMPBOOT_ADDR;
     BootInfo.write_secondary_boot :=
       if version =? 2 then Some fn_write_smpboot else Some fn_write_smpboot64;
     BootInfo.secondary_cpu_reset_hook := Some fn_reset_secondary;
     BootInfo.entry := BootInfo.entry bi;
     BootInfo.firmware_loaded := BootInfo.firmware_loaded bi |}.

(** raspi.c lines 227-228. *)
Definition assign_firmware (bi : arm_boot_info) (firmware_addr : Z) : arm_boot_info :=
  {| BootInfo.board_id := BootInfo.board_id bi;
     BootInfo.ram_size := BootInfo.ram_size bi;
     BootInfo.nb_cpus := BootInfo.nb_cpus bi;
     BootInfo.board_setup_addr := BootInfo.board_setup_addr bi;
     BootInfo.write_board_setup := BootInfo.write_board_setup bi;
     BootInfo.secure_board_setup := BootInfo.secure_board_setup bi;
     BootInfo.secure_boot := BootInfo.secure_boot bi;
     BootInfo.smp_loader_start := BootInfo.smp_loader_start bi;
     BootInfo.write_secondary_boot := BootInfo.write_secondary_boot bi;
     BootInfo.secondary_cpu_reset_hook := BootInfo.secondary_cpu_reset_hook bi;
     BootInfo.entry := firmware_addr;
     BootInfo.firmware_loaded := true |}.

Definition with_binfo (p : Proc) (bi : arm_boot_info) : Proc :=
  {| binfo := bi; images := images p; handoffs := handoffs p |}.

Definition with_images (p : Proc) (imgs : list LoadedImage) : Proc :=
  {| binfo := binfo p; images := imgs; handoffs := handoffs p |}.

(** The firmware block of [setup_boot], raspi.c lines 217-229.  The result
    of the load is kept in [int r]; the limit [ram_size - firmware_addr] is
    an unsigned 64-bit difference. *)
Definition load_firmware (p : Proc) (img : Image) (version ram_size : Z)
    : outcome Proc :=
  let firmware_addr := if version >=? 3 then FIRMWARE_ADDR_3 else FIRMWARE_ADDR_2 in
  let '(r, imgs) :=
    load_image_targphys img firmware_addr
      (wrap_uint64 (ram_size - firmware_addr)) (images p) in
  if wrap_int32 r <? 0 then Exit1 (FirmwareLoadFailed (image_path img))
  else Done (with_binfo (with_images p imgs)
               (assign_firmware (binfo p) firmware_addr)).

Definition setup_boot (p : Proc) (machine : MachineState) (version : Z)
    (ram_size : Z) : outcome Proc :=
  b ← lift (index bcm283x_boards version);
  let p := with_binfo p (assign_board (binfo p) (board_id b) ram_size (smp_cpus machine)) in
  let p := if version <=? 2 then with_binfo p (assign_secure_setup (binfo p)) else p in
  let p := if version >=? 2 then with_binfo p (assign_smp (binfo p) version) else p in
  p ← match firmware machine with
      | Some img => load_firmware p img version ram_size
      | None => Done p
      end;
  Done (arm_load_kernel addr_binfo p).

(** ** [raspi_init] and the machine entry points *)

Definition raspi_init (env : SocEnv) (p : Proc) (machine : MachineState)
    (version : Z) : outcome (SocConfig * Proc) :=
  b ← lift (index bcm283x_boards version);
  _ ← check_ram_size b (ram_size machine);
  ty ← lift (mjoin (index processor_typename (chip (board_rev b))));
  let rev := board_rev_code b (ram_size machine) in
  if negb (has_sd_bus env) then Exit1 NoSdBus
  else
    let soc := {| soc_type := ty; soc_ram := ram_size machine;
                  enabled_cpus := smp_cpus machine;
                  soc_board_rev := rev; sd_card_plugged := true |} in
    p ← setup_boot p machine version
          (wrap_uint64 (ram_size machine - vcram_size env));
    Done (soc, p).

Definition raspi2_init env p machine := raspi_init env p machine 2.
Definition raspi3_init env p machine := raspi_init env p machine 3.
Definition raspi4_init env p machine := raspi_init env p machine 4.

(** ** Notions the properties are stated with *)

(** The [width]-bit field of [w] at bit offset [offset]. *)
Definition field (w offset width : Z) : Z :=
  Z.land (Z.shiftr w offset) (Z.ones width).

(** The revision word laid out field by field, most significant first:
    RAM log (6 bits at 20), manufacturer (4 at 16), chip generation (4 at
    12), board type (8 at 4), revision step (4 at 0). *)
Definition revision_layout (ram_log man chp ty rev : Z) : Z :=
  ram_log * 2 ^ 20 + man * 2 ^ 16 + chp * 2 ^ 12 + ty * 2 ^ 4 + rev * 2 ^ 0.

Definition fits (v width : Z) : Prop := 0 <= v < 2 ^ width.

Definition power_of_two (v : Z) : Prop := exists k, 0 <= k /\ v = 2 ^ k.

Definition more_than_one_set_bit (v : Z) : Prop :=
  exists i j, i <> j /\ Z.testbit v i = true /\ Z.testbit v j = true.

(** ** Machine classes *)

(** The block interface types of sysemu/blockdev.h; only their identity
    matters here. *)
Inductive BlockInterfaceType :=
| IF_NONE | IF_IDE | IF_SCSI | IF_FLOPPY | IF_PFLASH | IF_MTD | IF_SD
| IF_VIRTIO | IF_XEN.

(** The fields of [MachineClass] (hw/boards.h) that raspi.c assigns; a NULL
    pointer is [None]. *)
Record MachineClass := {
  desc : option string;
  init : option (SocEnv -> Proc -> MachineState -> outcome (SocConfig * Proc));
  block_default_type : BlockInterfaceType;
  no_parallel : Z;
  no_floppy : Z;
  no_cdrom : Z;
  max_cpus : Z;
  min_cpus : Z;
  default_cpus : Z;
  default_ram_size : Z;
  ignore_memory_transaction_failures : bool
}.

Section MachineClasses.

(** [BCM283X_NCPUS] comes from hw/arm/bcm2836.h. *)
Variable BCM283X_NCPUS : Z.

Definition raspi2_machine_init (mc : MachineClass) : MachineClass :=
  {| desc := Some "Raspberry Pi 2B";
     init := Some raspi2_init;
     block_default_type := IF_SD;
     no_parallel := 1;
     no_floppy := 1;
     no_cdrom := 1;
     max_cpus := BCM283X_NCPUS;
     min_cpus := BCM283X_NCPUS;
     default_cpus := BCM283X_NCPUS;
     default_ram_size := 1 * GiB;
     ignore_memory_transaction_failures := true |}.

Definition raspi3_machine_init (mc : MachineClass) : MachineClass :=
  {| desc := Some "Raspberry Pi 3B";
     init := Some raspi3_init;
     block_default_type := IF_SD;
     no_parallel := 1;
     no_floppy := 1;
     no_cdrom := 1;
     max_cpus := BCM283X_NCPUS;
     min_cpus := BCM283X_NCPUS;
     default_cpus := BCM283X_NCPUS;
     default_ram_size := 1 * GiB;
     ignore_memory_transaction_failures := ignore_memory_transaction_failures mc |}.

Definition raspi4_machine_init (mc : MachineClass) : MachineClass :=
  {| desc := Some "Raspberry Pi 4B";
     init := Some raspi4_init;
     block_default_type := IF_SD;
     no_parallel := 1;
     no_floppy := 1;
     no_cdrom := 1;
     max_cpus := BCM283X_NCPUS;
     min_cpus := BCM283X_NCPUS;
     default_cpus := BCM283X_NCPUS;
     default_ram_size := 1 * GiB;
     ignore_memory_transaction_failures := ignore_memory_transaction_failures mc |}.

(** The [DEFINE_MACHINE] lines: "raspi2" in every build, "raspi3" and
    "raspi4" under [TARGET_AARCH64] only. *)
Definition defined_machines (target_aarch64 : bool)
    : list (string * (MachineClass -> MachineClass)) :=
  ("raspi2", raspi2_machine_init) ::
  (if target_aarch64
   then [ ("raspi3", raspi3_machine_init); ("raspi4", raspi4_machine_init) ]
   else []).

End MachineClasses.

(** ** The relocated instruction of [smpboot] *)

(** The second word of [smpboot] and the second [QEMU_BUILD_BUG_ON] of
    [write_smpboot], as functions of the board set-up address. *)
Definition mov_pc_boardsetup (boardsetup_addr : Z) : Z :=
  0xe3a0fe00 + Z.shiftr boardsetup_addr 4.

Definition misrelocated (boardsetup_addr : Z) : bool :=
  negb (Z.land boardsetup_addr 0xf =? 0) || (Z.shiftr boardsetup_addr 4 >=? 0x100).

(** The address range [rom_addr, rom_addr + size) of a blob. *)
Definition rom_end (r : Rom) : Z := rom_addr r + Z.of_nat (length (rom_data r)).

Definition roms_disjoint (r1 r2 : Rom) : Prop :=
  rom_end r1 <= rom_addr r2 \/ rom_end r2 <= rom_addr r1.

(** ** Bit-level facts about the host utilities *)

Lemma testbit_top (k x : Z) :
  0 <= k -> 0 <= x < 2 ^ (k + 1) -> Z.testbit x k = true <-> 2 ^ k <= x.
Proof.
  intros Hk [H0 Hlt]. split.
  - intros Hb. destruct (Z_lt_le_dec x (2 ^ k)) as [Hs|Hs]; [|exact Hs].
    destruct (Z.eq_dec x 0) as [->|Hne].
    + rewrite Z.bits_0 in Hb. discriminate.
    + rewrite Z.bits_above_log2 in Hb; [discriminate | lia |].
      apply Z.log2_lt_pow2; lia.
  - intros Hge. assert (Hx : 0 < x) by (pose proof (Z.pow_pos_nonneg 2 k); lia).
    replace k with (Z.log2 x).
    + apply Z.bit_log2. exact Hx.
    + apply Z.log2_unique; [exact Hk|]. rewrite <- Z.add_1_r. lia.
Qed.

Lemma clz_from_log2 (n : nat) (x : Z) :
  0 < x < 2 ^ Z.of_nat n -> clz_from n x = Z.of_nat n - 1 - Z.log2 x.
Proof.
  induction n as [|k IH]; intros [Hpos Hlt].
  - simpl in Hlt. lia.
  - cbn [clz_from].
    assert (Hr : 0 <= x < 2 ^ (Z.of_nat k + 1)).
    { replace (Z.of_nat k + 1) with (Z.of_nat (S k)) by lia. lia. }
    pose proof (testbit_top (Z.of_nat k) x (Nat2Z.is_nonneg k) Hr) as Htop.
    destruct (Z.testbit x (Z.of_nat k)) eqn:Hb.
    + assert (Hge : 2 ^ Z.of_nat k <= x) by (apply Htop; reflexivity).
      assert (Z.log2 x = Z.of_nat k) as ->.
      { apply Z.log2_unique; [lia|]. rewrite <- Z.add_1_r. lia. }
      lia.
    + assert (Hs : x < 2 ^ Z.of_nat k).
      { destruct (Z_lt_le_dec x (2 ^ Z.of_nat k)) as [Hs|Hs]; [exact Hs|].
        apply Htop in Hs. discriminate. }
      rewrite IH by lia. lia.
Qed.

Lemma clz64_log2 (x : Z) : 0 < x < 2 ^ 64 -> 63 - clz64 x = Z.log2 x.
Proof.
  intros H. unfold clz64. rewrite (clz_from_log2 64 x) by (simpl; lia). lia.
Qed.

Lemma clz64_zero : clz64 0 = 64.
Proof. reflexivity. Qed.

Lemma is_power_of_2_spec (v : Z) :
  is_power_of_2 v = true <-> power_of_two v.
Proof.
  unfold is_power_of_2, power_of_two. split.
  - destruct (v =? 0) eqn:Hz; [discriminate|].
    apply Z.eqb_neq in Hz. intros Hland%Z.eqb_eq.
    assert (Hpos : 0 < v).
    { destruct (Z_lt_le_dec 0 v) as [Hp|Hn]; [exact Hp|exfalso].
      assert (Hneg : Z.land v (v - 1) < 0) by (apply Z.land_neg; lia).
      lia. }
    exists (Z.log2 v). split; [apply Z.log2_nonneg|].
    destruct (Z.log2_spec v Hpos) as [Hlo Hhi].
    destruct (Z.eq_dec v (2 ^ Z.log2 v)) as [He|Hne]; [exact He|exfalso].
    pose proof (Z.pow_pos_nonneg 2 (Z.log2 v) ltac:(lia) (Z.log2_nonneg v)) as Hp.
    assert (Hlog : Z.log2 (v - 1) = Z.log2 v).
    { apply Z.log2_unique; [apply Z.log2_nonneg|].
      rewrite <- Z.add_1_r in *. lia. }
    assert (Hb : Z.testbit (Z.land v (v - 1)) (Z.log2 v) = true).
    { rewrite Z.land_spec, Z.bit_log2 by lia.
      rewrite <- Hlog, Z.bit_log2 by lia. reflexivity. }
    rewrite Hland, Z.bits_0 in Hb. discriminate.
  - intros (k & Hk & ->).
    pose proof (Z.pow_pos_nonneg 2 k ltac:(lia) Hk) as Hp.
    destruct (2 ^ k =? 0) eqn:Hz; [apply Z.eqb_eq in Hz; lia|].
    apply Z.eqb_eq.
    replace (2 ^ k - 1) with (Z.ones k) by (rewrite Z.ones_equiv; lia).
    rewrite Z.land_ones by exact Hk. apply Z_mod_same_full.
Qed.

Lemma low_bits_of_sum (k m j : Z) :
  0 <= j < k -> Z.testbit (2 ^ k + m) j = Z.testbit m j.
Proof.
  intros Hj.
  rewrite <- (Z.mod_pow2_bits_low (2 ^ k + m) k j) by lia.
  rewrite <- (Z.mod_pow2_bits_low m k j) by lia.
  f_equal. rewrite Z.add_comm, <- (Z.mul_1_l (2 ^ k)) at 1.
  apply Z_mod_plus_full.
Qed.

Lemma not_power_of_two_bits (v : Z) :
  0 < v -> ~ power_of_two v <-> more_than_one_set_bit v.
Proof.
  intros Hpos. split.
  - intros Hn.
    destruct (Z.log2_spec v Hpos) as [Hlo Hhi].
    set (k := Z.log2 v) in *.
    assert (Hk : 0 <= k) by apply Z.log2_nonneg.
    assert (Hm : 0 < v - 2 ^ k).
    { destruct (Z.eq_dec v (2 ^ k)) as [He|Hne]; [|lia].
      exfalso. apply Hn. exists k. auto. }
    set (m := v - 2 ^ k) in *.
    assert (Hmk : m < 2 ^ k) by (rewrite <- Z.add_1_r, Z.pow_add_r in Hhi; lia).
    assert (Hj : Z.log2 m < k) by (apply Z.log2_lt_pow2; lia).
    exists k, (Z.log2 m). repeat split.
    + lia.
    + apply Z.bit_log2. exact Hpos.
    + replace v with (2 ^ k + m) by (unfold m; lia).
      rewrite low_bits_of_sum by (pose proof (Z.log2_nonneg m); lia).
      apply Z.bit_log2. exact Hm.
  - intros (i & j & Hij & Hi & Hj) (k & Hk & ->).
    rewrite Z.pow2_bits_eqb in Hi, Hj by exact Hk.
    apply Z.eqb_eq in Hi, Hj. lia.
Qed.

Lemma is_power_of_2_false_iff (v : Z) :
  0 < v -> is_power_of_2 v = false <-> more_than_one_set_bit v.
Proof.
  intros Hpos. rewrite <- not_power_of_two_bits by exact Hpos.
  rewrite <- is_power_of_2_spec.
  destruct (is_power_of_2 v); split; intros H; try discriminate; try reflexivity.
  exfalso. apply H. reflexivity.
Qed.

(** ** The RAM size checks *)

Lemma index_supported (version : Z) :
  supported version -> is_Some (index bcm283x_boards version).
Proof. intros [-> | [-> | ->]]; eexists; reflexivity. Qed.

Lemma supported_board_bounds (version : Z) (b : BoardInfo) :
  supported version -> index bcm283x_boards version = Some b ->
  ram_size_min b = 2 ^ 30 /\
  (ram_size_max b = 2 ^ 30 \/ version = 4 /\ ram_size_max b = 2 ^ 33).
Proof.
  intros [-> | [-> | ->]] Hb; vm_compute in Hb; injection Hb as <-;
    split; try reflexivity; auto.
Qed.

Lemma check_ram_size_done_iff (b : BoardInfo) (ram : Z) :
  check_ram_size b ram = Done tt <->
  ram_size_min b <= ram <= ram_size_max b /\ power_of_two ram.
Proof.
  unfold check_ram_size. rewrite <- is_power_of_2_spec.
  destruct (ram <? ram_size_min b) eqn:Hlo;
    [apply Z.ltb_lt in Hlo | apply Z.ltb_ge in Hlo].
  { split; [discriminate | lia]. }
  destruct (ram >? ram_size_max b) eqn:Hhi;
    [apply Z.gtb_lt in Hhi | rewrite Z.gtb_ltb in Hhi; apply Z.ltb_ge in Hhi].
  { split; [discriminate | lia]. }
  destruct (is_power_of_2 ram); simpl.
  - split; [intros _; split; [lia | reflexivity] | reflexivity].
  - split; [discriminate | intros [_ H]; discriminate].
Qed.

Lemma pow2_exponent_between (k lo hi : Z) :
  0 <= lo -> 0 <= k -> 2 ^ lo <= 2 ^ k <= 2 ^ hi -> lo <= k <= hi.
Proof.
  intros Hlo Hk [H1 H2]. split.
  - apply (Z.pow_le_mono_r_iff 2); [lia | exact Hk | exact H1].
  - pose proof (Z.pow_pos_nonneg 2 k ltac:(lia) Hk) as Hp.
    destruct (Z_lt_le_dec hi 0) as [Hneg|Hhi].
    + rewrite (Z.pow_neg_r 2 hi Hneg) in H2. lia.
    + apply (Z.pow_le_mono_r_iff 2); [lia | exact Hhi | exact H2].
Qed.

Lemma accepted_cases (version : Z) (b : BoardInfo) (ram : Z) :
  supported version -> index bcm283x_boards version = Some b ->
  check_ram_size b ram = Done tt ->
  ram = 1 * GiB \/
  version = 4 /\ (ram = 2 * GiB \/ ram = 4 * GiB \/ ram = 8 * GiB).
Proof.
  intros Hs Hb Hc.
  apply check_ram_size_done_iff in Hc as [[Hmin Hmax] (k & Hk & ->)].
  destruct (supported_board_bounds version b Hs Hb) as [Emin Emax].
  rewrite Emin in Hmin.
  assert (Hk33 : 30 <= k <= 33).
  { apply pow2_exponent_between; [lia | exact Hk |].
    split; [exact Hmin|]. destruct Emax as [E | [_ E]]; rewrite E in Hmax.
    - etransitivity; [exact Hmax|]. vm_compute. discriminate.
    - exact Hmax. }
  assert (Hcases : k = 30 \/ k = 31 \/ k = 32 \/ k = 33) by lia.
  destruct Hcases as [-> | Hrest]; [left; reflexivity|].
  destruct Emax as [E | [-> E]].
  - exfalso. rewrite E in Hmax.
    apply (pow2_exponent_between k 30 30) in Hk; [lia | lia |]. split; assumption.
  - right. split; [reflexivity|].
    destruct Hrest as [-> | [-> | ->]]; [left | right; left | right; right];
      reflexivity.
Qed.

(** ** The revision word *)

Ltac board_cases Hs Hb Hc :=
  let Hr := fresh "Hr" in
  pose proof (accepted_cases _ _ _ Hs Hb Hc) as Hr;
  destruct Hs as [-> | [-> | ->]];
  vm_compute in Hb; injection Hb as <-;
  destruct Hr as [-> | [? [-> | [-> | ->]]]]; try discriminate.

Lemma board_rev_code_fields (version : Z) (b : BoardInfo) (ram : Z) :
  supported version -> index bcm283x_boards version = Some b ->
  check_ram_size b ram = Done tt ->
  field (board_rev_code b ram) 20 6 = Z.log2 (ram / MiB) /\
  field (board_rev_code b ram) 16 4 = manufacturer (board_rev b) /\
  field (board_rev_code b ram) 12 4 = chip (board_rev b) /\
  field (board_rev_code b ram) 4 8 = type (board_rev b) /\
  field (board_rev_code b ram) 0 4 = revision (board_rev b).
Proof.
  intros Hs Hb Hc. board_cases Hs Hb Hc; vm_compute; auto.
Qed.

Lemma supported_chip (version : Z) (b : BoardInfo) :
  supported version -> index bcm283x_boards version = Some b ->
  version = chip (board_rev b) + 1.
Proof.
  intros [-> | [-> | ->]] Hb; vm_compute in Hb; injection Hb as <-; reflexivity.
Qed.

Lemma ram_log_determines_ram (v1 v2 : Z) (b1 b2 : BoardInfo) (r1 r2 : Z) :
  supported v1 -> index bcm283x_boards v1 = Some b1 ->
  check_ram_size b1 r1 = Done tt ->
  supported v2 -> index bcm283x_boards v2 = Some b2 ->
  check_ram_size b2 r2 = Done tt ->
  Z.log2 (r1 / MiB) = Z.log2 (r2 / MiB) -> r1 = r2.
Proof.
  intros Hs1 Hb1 Hc1 Hs2 Hb2 Hc2 Hlog.
  destruct (accepted_cases _ _ _ Hs1 Hb1 Hc1) as [-> | [_ [-> | [-> | ->]]]];
  destruct (accepted_cases _ _ _ Hs2 Hb2 Hc2) as [-> | [_ [-> | [-> | ->]]]];
  vm_compute in Hlog; try discriminate; reflexivity.
Qed.

Lemma board_rev_code_inj (v1 v2 : Z) (b1 b2 : BoardInfo) (r1 r2 : Z) :
  supported v1 -> index bcm283x_boards v1 = Some b1 ->
  check_ram_size b1 r1 = Done tt ->
  supported v2 -> index bcm283x_boards v2 = Some b2 ->
  check_ram_size b2 r2 = Done tt ->
  board_rev_code b1 r1 = board_rev_code b2 r2 -> v1 = v2 /\ r1 = r2.
Proof.
  intros Hs1 Hb1 Hc1 Hs2 Hb2 Hc2 Hw.
  destruct (board_rev_code_fields v1 b1 r1 Hs1 Hb1 Hc1) as (L1 & _ & C1 & _).
  destruct (board_rev_code_fields v2 b2 r2 Hs2 Hb2 Hc2) as (L2 & _ & C2 & _).
  rewrite Hw in L1, C1. split.
  - rewrite (supported_chip v1 b1 Hs1 Hb1), (supported_chip v2 b2 Hs2 Hb2).
    congruence.
  - apply (ram_log_determines_ram v1 v2 b1 b2 r1 r2); auto. congruence.
Qed.

(** C1.  For a supported version and a RAM size that passes the checks of
    [raspi_init], the revision word is a 32-bit word that carries
    log2 (ram / 1 MiB) in the 6 bits at offset 20, the manufacturer code in
    the 4 bits at offset 16, the chip code in the 4 bits at offset 12, the
    board type in the 8 bits at offset 4 and the revision step in the 4 bits
    at offset 0, every value fitting its field; for version 2 with 1 GiB the
    fields read chip 1, manufacturer 2, type 4, revision 1, RAM log 10. *)
Theorem board_rev_code_layout (version : Z) (b : BoardInfo) (ram : Z) :
  supported version -> index bcm283x_boards version = Some b ->
  check_ram_size b ram = Done tt ->
  let w := board_rev_code b ram in
  let r := board_rev b in
  w = revision_layout (Z.log2 (ram / MiB)) (manufacturer r) (chip r) (type r)
        (revision r) /\
  0 <= w < 2 ^ 32 /\
  (fits (Z.log2 (ram / MiB)) 6 /\ fits (manufacturer r) 4 /\ fits (chip r) 4 /\
   fits (type r) 8 /\ fits (revision r) 4) /\
  (field w 20 6 = Z.log2 (ram / MiB) /\ field w 16 4 = manufacturer r /\
   field w 12 4 = chip r /\ field w 4 8 = type r /\ field w 0 4 = revision r) /\
  (version = 2 -> ram = 1 * GiB ->
   field w 12 4 = 1 /\ field w 16 4 = 2 /\ field w 4 8 = 4 /\
   field w 0 4 = 1 /\ field w 20 6 = 10).
Proof.
  intros Hs Hb Hc w r.
  pose proof (board_rev_code_fields version b ram Hs Hb Hc) as Hf.
  fold w r in Hf. split; [|split; [|split; [|split; [exact Hf|]]]].
  - subst w r. board_cases Hs Hb Hc; reflexivity.
  - subst w r. board_cases Hs Hb Hc; vm_compute; split; easy.
  - subst w r. unfold fits. board_cases Hs Hb Hc; vm_compute; intuition easy.
  - intros -> ->. vm_compute in Hb. injection Hb as <-. subst w.
    vm_compute. auto.
Qed.

(** C1, at the Raspberry Pi 2 with 1 GiB. *)
Lemma board_rev_code_layout_pi2 :
  exists b, index bcm283x_boards 2 = Some b /\
    board_rev_code b (1 * GiB) = 0xa21041 /\
    field (board_rev_code b (1 * GiB)) 12 4 = 1 /\
    field (board_rev_code b (1 * GiB)) 16 4 = 2 /\
    field (board_rev_code b (1 * GiB)) 4 8 = 4 /\
    field (board_rev_code b (1 * GiB)) 0 4 = 1 /\
    field (board_rev_code b (1 * GiB)) 20 6 = 10.
Proof.
  eexists. split; [reflexivity|]. split; [reflexivity|].
  refine (proj2 (proj2 (proj2 (proj2
    (board_rev_code_layout 2 _ (1 * GiB) _ eq_refl eq_refl)))) eq_refl eq_refl).
  left. reflexivity.
Defined.

(** C9.  Two pairs of a supported version and an accepted RAM size that
    differ in the version or in the RAM size have different revision
    words. *)
Theorem board_rev_code_injective (v1 v2 : Z) (b1 b2 : BoardInfo) (r1 r2 : Z) :
  supported v1 -> index bcm283x_boards v1 = Some b1 ->
  check_ram_size b1 r1 = Done tt ->
  supported v2 -> index bcm283x_boards v2 = Some b2 ->
  check_ram_size b2 r2 = Done tt ->
  v1 <> v2 \/ r1 <> r2 ->
  board_rev_code b1 r1 <> board_rev_code b2 r2.
Proof.
  intros Hs1 Hb1 Hc1 Hs2 Hb2 Hc2 Hdiff Hw.
  destruct (board_rev_code_inj v1 v2 b1 b2 r1 r2) as [Hv Hr]; auto.
  destruct Hdiff; contradiction.
Qed.

(** C9, at the Raspberry Pi 4 with 2 GiB against 4 GiB. *)
Lemma board_rev_code_injective_pi4 :
  exists b, index bcm283x_boards 4 = Some b /\
    board_rev_code b (2 * GiB) <> board_rev_code b (4 * GiB).
Proof.
  eexists. split; [reflexivity|].
  apply (board_rev_code_injective 4 4 _ _ (2 * GiB) (4 * GiB)).
  - right. right. reflexivity.
  - reflexivity.
  - reflexivity.
  - right. right. reflexivity.
  - reflexivity.
  - reflexivity.
  - right. vm_compute. discriminate.
Defined.

(** ** RAM validation *)

Lemma check_ram_size_too_small (b : BoardInfo) (ram : Z) :
  ram < ram_size_min b ->
  check_ram_size b ram = Exit1 (RamTooSmall (ram_size_min b)).
Proof.
  intros H. unfold check_ram_size.
  destruct (ram <? ram_size_min b) eqn:E; [reflexivity|].
  apply Z.ltb_ge in E. lia.
Qed.

Lemma check_ram_size_too_large (b : BoardInfo) (ram : Z) :
  ram_size_min b <= ram_size_max b -> ram > ram_size_max b ->
  check_ram_size b ram = Exit1 (RamTooLarge (ram_size_max b)).
Proof.
  intros Hb H. unfold check_ram_size.
  destruct (ram <? ram_size_min b) eqn:E; [apply Z.ltb_lt in E; lia|].
  destruct (ram >? ram_size_max b) eqn:E'; [reflexivity|].
  rewrite Z.gtb_ltb in E'. apply Z.ltb_ge in E'. lia.
Qed.

Lemma check_ram_size_not_power_of_2 (b : BoardInfo) (ram : Z) :
  0 < ram_size_min b -> ram_size_min b <= ram <= ram_size_max b ->
  more_than_one_set_bit ram <-> check_ram_size b ram = Exit1 RamNotPowerOf2.
Proof.
  intros Hpos [Hlo Hhi]. rewrite <- is_power_of_2_false_iff by lia.
  unfold check_ram_size.
  destruct (ram <? ram_size_min b) eqn:E; [apply Z.ltb_lt in E; lia|].
  destruct (ram >? ram_size_max b) eqn:E';
    [apply Z.gtb_lt in E'; lia|].
  destruct (is_power_of_2 ram); simpl; split; congruence.
Qed.

Lemma raspi_init_stops_on_bad_ram (env : SocEnv) (p : Proc)
    (machine : MachineState) (version : Z) (b : BoardInfo) (e : ErrorReport) :
  index bcm283x_boards version = Some b ->
  check_ram_size b (ram_size machine) = Exit1 e ->
  raspi_init env p machine version = Exit1 e.
Proof.
  intros Hb Hc. unfold raspi_init. rewrite Hb. simpl. rewrite Hc. reflexivity.
Qed.

Lemma raspi_init_done (env : SocEnv) (p p' : Proc) (machine : MachineState)
    (version : Z) (soc : SocConfig) :
  raspi_init env p machine version = Done (soc, p') ->
  exists b, index bcm283x_boards version = Some b /\
    check_ram_size b (ram_size machine) = Done tt /\
    soc_board_rev soc = board_rev_code b (ram_size machine) /\
    setup_boot p machine version
      (wrap_uint64 (ram_size machine - vcram_size env)) = Done p'.
Proof.
  unfold raspi_init. intros Hrun.
  destruct (index bcm283x_boards version) as [b|]; [|discriminate].
  exists b. simpl in Hrun.
  destruct (check_ram_size b (ram_size machine)) as [[]| |]; try discriminate.
  simpl in Hrun.
  destruct (mjoin (index processor_typename (chip (board_rev b)))) as [ty|];
    try discriminate.
  simpl in Hrun. destruct (has_sd_bus env); try discriminate. simpl in Hrun.
  destruct (setup_boot p machine version _) as [q| |]; try discriminate.
  simpl in Hrun. injection Hrun as <- <-. auto.
Qed.

(** C2, as amended.  For a supported version, the RAM checks succeed exactly
    for the powers of two in [ram_size_min, ram_size_max]; a size below the
    minimum is reported too small, a size above the maximum too large, and a
    size inside the bounds is reported as not a power of two exactly when
    more than one of its bits is set; these cases cover every size, and any
    report stops [raspi_init] with that report. *)
Theorem ram_validation_in_check_order (version : Z) (b : BoardInfo) (ram : Z) :
  supported version -> index bcm283x_boards version = Some b ->
  (check_ram_size b ram = Done tt <->
   ram_size_min b <= ram <= ram_size_max b /\ power_of_two ram) /\
  (ram < ram_size_min b ->
   check_ram_size b ram = Exit1 (RamTooSmall (ram_size_min b))) /\
  (ram > ram_size_max b ->
   check_ram_size b ram = Exit1 (RamTooLarge (ram_size_max b))) /\
  (ram_size_min b <= ram <= ram_size_max b ->
   (more_than_one_set_bit ram <-> check_ram_size b ram = Exit1 RamNotPowerOf2)) /\
  (ram_size_min b <= ram <= ram_size_max b ->
   power_of_two ram \/ more_than_one_set_bit ram) /\
  (forall env p machine e,
     ram_size machine = ram -> check_ram_size b ram = Exit1 e ->
     raspi_init env p machine version = Exit1 e).
Proof.
  intros Hs Hb.
  destruct (supported_board_bounds version b Hs Hb) as [Emin Emax].
  assert (Hpos : 0 < ram_size_min b) by (rewrite Emin; reflexivity).
  assert (Hord : ram_size_min b <= ram_size_max b).
  { rewrite Emin. destruct Emax as [-> | [_ ->]]; vm_compute; discriminate. }
  split; [apply check_ram_size_done_iff|].
  split; [apply check_ram_size_too_small|].
  split; [apply check_ram_size_too_large; exact Hord|].
  split; [apply check_ram_size_not_power_of_2; exact Hpos|].
  split.
  - intros Hin. rewrite <- not_power_of_two_bits by lia.
    rewrite <- is_power_of_2_spec. destruct (is_power_of_2 ram); [left|right]; congruence.
  - intros env p machine e <- He.
    apply (raspi_init_stops_on_bad_ram env p machine version b e Hb He).
Qed.

(** C2 as amended, at the Raspberry Pi 4 with 3 GiB: inside the bounds, two
    bits set, reported as not a power of two. *)
Lemma ram_validation_in_check_order_pi4_3GiB :
  exists b, index bcm283x_boards 4 = Some b /\
    check_ram_size b (3 * GiB) = Exit1 RamNotPowerOf2.
Proof.
  eexists. split; [reflexivity|].
  refine (proj1 (proj1 (proj2 (proj2 (proj2
    (ram_validation_in_check_order 4 _ (3 * GiB) _ eq_refl)))) _) _).
  - right. right. reflexivity.
  - vm_compute. split; discriminate.
  - exists 30, 31. split; [lia|]. split; reflexivity.
Defined.

(** C2 as stated fails: 3 GiB on the Raspberry Pi 2 has two bits set, yet the
    report is "too large", because the bound tests come first. *)
Lemma ram_3GiB_on_pi2_is_too_large :
  exists b, supported 2 /\ index bcm283x_boards 2 = Some b /\
    more_than_one_set_bit (3 * GiB) /\
    check_ram_size b (3 * GiB) = Exit1 (RamTooLarge (1 * GiB)) /\
    check_ram_size b (3 * GiB) <> Exit1 RamNotPowerOf2.
Proof.
  eexists. split; [left; reflexivity|]. split; [reflexivity|].
  split; [exists 30, 31; split; [lia|]; split; reflexivity|].
  split; [reflexivity|]. vm_compute. discriminate.
Qed.

(** C10.  Versions 2 and 3 have minimum and maximum both 1 GiB, so the
    checks pass for 1 GiB and for nothing else; version 4 has minimum 1 GiB
    and maximum 8 GiB and the checks pass exactly for 1, 2, 4 and 8 GiB.
    Every other size ends in a report. *)
Theorem ram_ranges_by_version (version : Z) (b : BoardInfo) (ram : Z) :
  supported version -> index bcm283x_boards version = Some b ->
  (version = 2 \/ version = 3 ->
   ram_size_min b = 1 * GiB /\ ram_size_max b = 1 * GiB /\
   (check_ram_size b ram = Done tt <-> ram = 1 * GiB)) /\
  (version = 4 ->
   ram_size_min b = 1 * GiB /\ ram_size_max b = 8 * GiB /\
   (check_ram_size b ram = Done tt <->
    ram = 1 * GiB \/ ram = 2 * GiB \/ ram = 4 * GiB \/ ram = 8 * GiB)) /\
  (check_ram_size b ram <> Done tt -> exists e, check_ram_size b ram = Exit1 e).
Proof.
  intros Hs Hb. split; [|split].
  - intros Hv. assert (Hb' := Hb).
    destruct Hv as [-> | ->]; vm_compute in Hb'; injection Hb' as <-;
      (split; [reflexivity|]; split; [reflexivity|]; split;
       [ intros Hc;
         destruct (accepted_cases _ _ _ Hs Hb Hc) as [-> | [? _]];
           [reflexivity | discriminate]
       | intros ->; reflexivity ]).
  - intros ->. assert (Hb' := Hb). vm_compute in Hb'. injection Hb' as <-.
    split; [reflexivity|]. split; [reflexivity|]. split.
    + intros Hc. destruct (accepted_cases _ _ _ Hs Hb Hc) as [-> | [_ H]]; auto.
    + intros [-> | [-> | [-> | ->]]]; reflexivity.
  - intros Hn. unfold check_ram_size in *.
    destruct (ram <? ram_size_min b); [eauto|].
    destruct (ram >? ram_size_max b); [eauto|].
    destruct (negb (is_power_of_2 ram)); [eauto|]. congruence.
Qed.

(** C10, at the Raspberry Pi 3 with 2 GiB (refused) and the Raspberry Pi 4
    with 2 GiB (accepted). *)
Lemma ram_ranges_by_version_2GiB :
  exists b3 b4,
    index bcm283x_boards 3 = Some b3 /\ index bcm283x_boards 4 = Some b4 /\
    check_ram_size b3 (2 * GiB) <> Done tt /\
    check_ram_size b4 (2 * GiB) = Done tt.
Proof.
  eexists. eexists. split; [reflexivity|]. split; [reflexivity|]. split.
  - intros Hc.
    apply (proj1 (ram_ranges_by_version 3 _ (2 * GiB)
             (or_intror (or_introl eq_refl)) eq_refl)) in Hc.
    + vm_compute in Hc. discriminate.
    + right. reflexivity.
  - apply (proj1 (proj2 (ram_ranges_by_version 4 _ (2 * GiB)
             (or_intror (or_intror eq_refl)) eq_refl))).
    + reflexivity.
    + right. left. reflexivity.
Defined.

(** ** Blobs in guest memory *)

Lemma write_bytes_lookup_below (data : list Z) (addr : Z) (mem : gmap Z Z) (a : Z) :
  a < addr -> write_bytes addr data mem !! a = mem !! a.
Proof.
  revert addr mem. induction data as [|x rest IH]; intros addr mem Ha; simpl.
  - reflexivity.
  - rewrite IH by lia. apply lookup_insert_ne. lia.
Qed.

Lemma write_bytes_lookup_above (data : list Z) (addr : Z) (mem : gmap Z Z) (a : Z) :
  addr + Z.of_nat (length data) <= a -> write_bytes addr data mem !! a = mem !! a.
Proof.
  revert addr mem. induction data as [|x rest IH]; intros addr mem Ha; simpl in *.
  - reflexivity.
  - rewrite IH by lia. apply lookup_insert_ne. lia.
Qed.

Lemma write_bytes_lookup_in (data : list Z) (addr : Z) (mem : gmap Z Z)
    (i : nat) (x : Z) :
  data !! i = Some x ->
  write_bytes addr data mem !! (addr + Z.of_nat i) = Some x.
Proof.
  revert addr mem i. induction data as [|y rest IH]; intros addr mem i Hi.
  - destruct i; discriminate.
  - cbn [write_bytes]. destruct i as [|i]; simpl in Hi.
    + injection Hi as ->. rewrite write_bytes_lookup_below by lia.
      rewrite Z.add_0_r. apply lookup_insert_eq.
    + replace (addr + Z.of_nat (S i)) with (addr + 1 + Z.of_nat i) by lia.
      apply IH. exact Hi.
Qed.


Lemma rom_reset_snoc (roms : list Rom) (r : Rom) (mem : gmap Z Z) :
  rom_reset (roms ++ [r]) mem =
  write_bytes (rom_addr r) (rom_data r) (rom_reset roms mem).
Proof. unfold rom_reset. rewrite foldl_snoc. reflexivity. Qed.

Lemma write_smpboot_unfold (info : arm_boot_info) (roms : list Rom) :
  write_smpboot info roms =
  roms ++ [ {| rom_name := "raspi_smpboot";
               rom_addr := BootInfo.smp_loader_start info;
               rom_data := bytes_of_words 4 smpboot |} ].
Proof. reflexivity. Qed.

Lemma write_smpboot64_unfold (info : arm_boot_info) (roms : list Rom) :
  write_smpboot64 info roms =
  roms ++ [ {| rom_name := "raspi_smpboot";
               rom_addr := BootInfo.smp_loader_start info;
               rom_data := bytes_of_words 4 smpboot64 |};
            {| rom_name := "raspi_spintables";
               rom_addr := SPINTABLE_ADDR;
               rom_data := bytes_of_words 8 spintables |} ].
Proof.
  unfold write_smpboot64, rom_add_blob_fixed. rewrite <- app_assoc. reflexivity.
Qed.

Lemma write_bytes_lookup_at (data : list Z) (addr : Z) (mem : gmap Z Z)
    (a x : Z) :
  addr <= a -> data !! Z.to_nat (a - addr) = Some x ->
  write_bytes addr data mem !! a = Some x.
Proof.
  intros Ha Hx.
  replace a with (addr + Z.of_nat (Z.to_nat (a - addr))) by lia.
  apply write_bytes_lookup_in. exact Hx.
Qed.

Lemma spintables_bytes : bytes_of_words 8 spintables = replicate 32 0.
Proof. reflexivity. Qed.

Lemma smpboot64_bytes_length : length (bytes_of_words 4 smpboot64) = 44%nat.
Proof. reflexivity. Qed.

(** The two blobs of [write_smpboot64], copied in either order. *)
Lemma smpboot64_image (info : arm_boot_info) (roms' : list Rom) (mem : gmap Z Z) :
  BootInfo.smp_loader_start info = SMPBOOT_ADDR ->
  Permutation roms' (write_smpboot64 info []) ->
  (forall a, SPINTABLE_ADDR <= a < SPINTABLE_ADDR + 32 ->
     rom_reset roms' mem !! a = Some 0) /\
  (forall i x, bytes_of_words 4 smpboot64 !! i = Some x ->
     rom_reset roms' mem !! (SMPBOOT_ADDR + Z.of_nat i) = Some x).
Proof.
  intros Hstart HP. rewrite write_smpboot64_unfold, Hstart in HP.
  apply Permutation_sym, Permutation_length_2_inv in HP.
  assert (Hzero : forall a, SPINTABLE_ADDR <= a < SPINTABLE_ADDR + 32 ->
            bytes_of_words 8 spintables !! Z.to_nat (a - SPINTABLE_ADDR) = Some 0).
  { intros a Ha. rewrite spintables_bytes. apply lookup_replicate_2. lia. }
  destruct HP as [-> | ->]; unfold rom_reset; cbn [foldl rom_addr rom_data];
    split.
  - intros a Ha. apply write_bytes_lookup_at; [lia | auto].
  - intros i x Hi.
    rewrite write_bytes_lookup_above
      by (rewrite spintables_bytes, length_replicate;
          unfold SPINTABLE_ADDR, SMPBOOT_ADDR; lia).
    apply write_bytes_lookup_in. exact Hi.
  - intros a Ha.
    rewrite write_bytes_lookup_below
      by (unfold SPINTABLE_ADDR, SMPBOOT_ADDR in *; lia).
    apply write_bytes_lookup_at; [lia | auto].
  - intros i x Hi. apply write_bytes_lookup_in. exact Hi.
Qed.

(** ** [setup_boot] *)

Lemma table_index_cases (version : Z) :
  0 <= version < 5 ->
  version = 0 \/ version = 1 \/ version = 2 \/ version = 3 \/ version = 4.
Proof. lia. Qed.

Ltac table_cases H :=
  destruct (table_index_cases _ H) as [-> | [-> | [-> | [-> | ->]]]].

Ltac run_setup_boot :=
  unfold setup_boot, load_firmware, load_image_targphys; simpl.

(** From [setup_boot ... = Done p'] to the value of [p'], one case per path
    through the firmware block. *)
Ltac setup_boot_inv Hrun :=
  revert Hrun; run_setup_boot; intros Hrun;
  repeat (case_match; simpl in Hrun); simplify_eq.

Ltac split_fields :=
  repeat match goal with
         | |- _ /\ _ => split
         | |- _ <-> _ => split
         | |- _ -> _ => intro
         end.

(** C3, as amended.  For a version of the table and whatever the static
    descriptor held before, a call of [setup_boot] that reaches the loader
    has set the secure board set-up (flags, hook and address) when the
    version is at most 2 and has left those fields as they were otherwise;
    it has selected [write_smpboot] for version 2 and [write_smpboot64] for
    versions from 3 on, with the reset hook and the trampoline address, and
    has left those fields as they were for versions below 2.  Hence, on a
    descriptor that is still zero-filled (the first machine of a process),
    the secure set-up is present exactly when the version is at most 2, the
    32-bit trampoline exactly for version 2, the 64-bit one exactly for
    versions from 3 on and the reset hook exactly for versions from 2 on.
    Without a firmware image the call always reaches the loader.  A version 3
    machine with 1 GiB and no firmware, built first, gets through
    [raspi_init] a descriptor without secure set-up, with [write_smpboot64]
    and with board id 0xc44. *)
Theorem boot_decision_table (p : Proc) (machine : MachineState)
    (version ram : Z) :
  0 <= version < 5 ->
  (firmware machine = None ->
   exists p', setup_boot p machine version ram = Done p') /\
  (forall p', setup_boot p machine version ram = Done p' ->
     let old := binfo p in
     let new := binfo p' in
     (version <= 2 ->
      BootInfo.secure_board_setup new = true /\
      BootInfo.secure_boot new = true /\
      BootInfo.write_board_setup new = Some fn_write_board_setup /\
      BootInfo.board_setup_addr new = BOARDSETUP_ADDR) /\
     (2 < version ->
      BootInfo.secure_board_setup new = BootInfo.secure_board_setup old /\
      BootInfo.secure_boot new = BootInfo.secure_boot old /\
      BootInfo.write_board_setup new = BootInfo.write_board_setup old /\
      BootInfo.board_setup_addr new = BootInfo.board_setup_addr old) /\
     (version = 2 ->
      BootInfo.write_secondary_boot new = Some fn_write_smpboot) /\
     (3 <= version ->
      BootInfo.write_secondary_boot new = Some fn_write_smpboot64) /\
     (2 <= version ->
      BootInfo.secondary_cpu_reset_hook new = Some fn_reset_secondary /\
      BootInfo.smp_loader_start new = SMPBOOT_ADDR) /\
     (version < 2 ->
      BootInfo.write_secondary_boot new = BootInfo.write_secondary_boot old /\
      BootInfo.secondary_cpu_reset_hook new = BootInfo.secondary_cpu_reset_hook old /\
      BootInfo.smp_loader_start new = BootInfo.smp_loader_start old) /\
     (old = BootInfo.zero ->
      (BootInfo.secure_board_setup new = true <-> version <= 2) /\
      (BootInfo.secure_boot new = true <-> version <= 2) /\
      (BootInfo.write_board_setup new = Some fn_write_board_setup <-> version <= 2) /\
      (BootInfo.write_secondary_boot new = Some fn_write_smpboot <-> version = 2) /\
      (BootInfo.write_secondary_boot new = Some fn_write_smpboot64 <-> 3 <= version) /\
      (BootInfo.write_secondary_boot new = None <-> version < 2) /\
      (BootInfo.secondary_cpu_reset_hook new = Some fn_reset_secondary <-> 2 <= version)) /\
     handoffs p' =
       handoffs p ++ [ {| handed_ref := addr_binfo; handed_content := new |} ]) /\
  (forall env cpus, has_sd_bus env = true ->
     exists soc p',
       raspi3_init env proc_start
         {| ram_size := 1 * GiB; smp_cpus := cpus; firmware := None |}
       = Done (soc, p') /\
       BootInfo.secure_board_setup (binfo p') = false /\
       BootInfo.secure_boot (binfo p') = false /\
       BootInfo.write_board_setup (binfo p') = None /\
       BootInfo.write_secondary_boot (binfo p') = Some fn_write_smpboot64 /\
       BootInfo.smp_loader_start (binfo p') = SMPBOOT_ADDR /\
       BootInfo.board_id (binfo p') = 0xc44).
Proof.
  intros Hv. split; [|split].
  - intros Hfw. table_cases Hv; unfold setup_boot; rewrite Hfw; simpl; eauto.
  - intros p' Hrun. destruct p as [bi imgs hos].
    table_cases Hv; setup_boot_inv Hrun; cbv zeta; simpl;
      split_fields; subst; simpl in *;
      try reflexivity; try congruence; try lia.
  - intros env cpus Hbus. unfold raspi3_init, raspi_init. simpl.
    rewrite Hbus. simpl. eexists. eexists. split; [reflexivity|].
    simpl. repeat split; reflexivity.
Qed.

(** C3 as amended, at version 3 without firmware, built first. *)
Lemma boot_decision_table_pi3 :
  exists p',
    setup_boot proc_start
      {| ram_size := 1 * GiB; smp_cpus := 4; firmware := None |} 3 (1 * GiB)
    = Done p' /\
    BootInfo.secure_board_setup (binfo p') = false /\
    BootInfo.write_secondary_boot (binfo p') = Some fn_write_smpboot64.
Proof.
  pose proof (boot_decision_table proc_start
    {| ram_size := 1 * GiB; smp_cpus := 4; firmware := None |} 3 (1 * GiB)
    ltac:(lia)) as (Hrun & Hprops & _).
  destruct (Hrun eq_refl) as [p' Hp']. exists p'. split; [exact Hp'|].
  destruct (Hprops p' Hp') as (_ & Hkeep & _ & H64 & _). split.
  - destruct (Hkeep ltac:(lia)) as [-> _]. reflexivity.
  - apply H64. lia.
Defined.

(** C3 as stated fails: a version 3 machine with 1 GiB and no firmware that
    is built after a version 2 machine in the same process gets a descriptor
    with the secure board set-up present, although its version is above 2. *)
Lemma boot_decision_pi3_after_pi2 :
  let m := {| ram_size := 1 * GiB; smp_cpus := 4; firmware := None |} in
  exists p1 p2,
    setup_boot proc_start m 2 (1 * GiB) = Done p1 /\
    setup_boot p1 m 3 (1 * GiB) = Done p2 /\
    BootInfo.board_id (binfo p2) = 0xc44 /\
    BootInfo.write_secondary_boot (binfo p2) = Some fn_write_smpboot64 /\
    BootInfo.secure_board_setup (binfo p2) = true /\
    BootInfo.secure_boot (binfo p2) = true /\
    BootInfo.write_board_setup (binfo p2) = Some fn_write_board_setup /\
    ~ (3 <= 2).
Proof.
  intros m. do 2 eexists.
  split; [reflexivity|]. split; [reflexivity|]. split; [reflexivity|].
  split; [reflexivity|]. split; [reflexivity|]. split; [reflexivity|].
  split; [reflexivity|]. lia.
Qed.

(** ** Firmware *)







(** ** The static descriptor across calls *)

Lemma index_some_range {A} (arr : list A) (i : Z) (x : A) :
  index arr i = Some x -> 0 <= i < Z.of_nat (length arr).
Proof.
  unfold index. destruct (i <? 0) eqn:Hneg; [discriminate|].
  apply Z.ltb_ge in Hneg. intros Hx%lookup_lt_Some. lia.
Qed.

Lemma setup_boot_done_range (p p' : Proc) (machine : MachineState)
    (version ram : Z) :
  setup_boot p machine version ram = Done p' -> 0 <= version < 5.
Proof.
  unfold setup_boot. destruct (index bcm283x_boards version) as [b|] eqn:Hb.
  - intros _. apply index_some_range in Hb. simpl in Hb. lia.
  - discriminate.
Qed.

(** C8, as amended.  The descriptor is the one static object of
    [setup_boot], zero-filled before the first call.  A call that reaches
    the loader has overwritten the board id, the RAM size and the number of
    CPUs; the secure set-up fields keep their earlier content when the
    version is above 2, the secondary-boot fields when the version is below
    2, and the firmware entry and flag when no firmware is given.  The loader
    receives the address of that object as the last step of the call, so at
    the end of the call the object still has the content it was handed
    over with. *)
Theorem boot_descriptor_is_static (p p' : Proc) (machine : MachineState)
    (version ram : Z) :
  setup_boot p machine version ram = Done p' ->
  let old := binfo p in
  let new := binfo p' in
  binfo proc_start = BootInfo.zero /\
  (exists b, index bcm283x_boards version = Some b /\
     BootInfo.board_id new = board_id b) /\
  BootInfo.ram_size new = ram /\
  BootInfo.nb_cpus new = smp_cpus machine /\
  (2 < version ->
   BootInfo.board_setup_addr new = BootInfo.board_setup_addr old /\
   BootInfo.write_board_setup new = BootInfo.write_board_setup old /\
   BootInfo.secure_board_setup new = BootInfo.secure_board_setup old /\
   BootInfo.secure_boot new = BootInfo.secure_boot old) /\
  (version < 2 ->
   BootInfo.smp_loader_start new = BootInfo.smp_loader_start old /\
   BootInfo.write_secondary_boot new = BootInfo.write_secondary_boot old /\
   BootInfo.secondary_cpu_reset_hook new = BootInfo.secondary_cpu_reset_hook old) /\
  (firmware machine = None ->
   BootInfo.entry new = BootInfo.entry old /\
   BootInfo.firmware_loaded new = BootInfo.firmware_loaded old) /\
  (exists h, handoffs p' = handoffs p ++ [h] /\
     handed_ref h = addr_binfo /\ handed_content h = new /\
     deref p' (handed_ref h) = handed_content h).
Proof.
  intros Hrun old new. subst old new.
  pose proof (setup_boot_done_range _ _ _ _ _ Hrun) as Hv.
  split; [reflexivity|].
  table_cases Hv; setup_boot_inv Hrun; simpl;
    (split; [eexists; split; reflexivity|]);
    (split; [reflexivity|]); (split; [reflexivity|]);
    (split; [intros; try lia; auto|]);
    (split; [intros; try lia; auto|]);
    (split; [intros; try congruence; auto|]);
    eexists; (split; [reflexivity|]); auto.
Qed.

(** C8 as amended, at the first call of a process (version 3, no firmware). *)
Lemma boot_descriptor_is_static_first_call :
  exists p',
    setup_boot proc_start
      {| ram_size := 1 * GiB; smp_cpus := 4; firmware := None |} 3 (1 * GiB)
    = Done p' /\
    BootInfo.secure_boot (binfo p') = false /\
    BootInfo.firmware_loaded (binfo p') = false.
Proof.
  eexists. split; [reflexivity|].
  pose proof (boot_descriptor_is_static proc_start _
    {| ram_size := 1 * GiB; smp_cpus := 4; firmware := None |} 3 (1 * GiB)
    eq_refl) as (_ & _ & _ & _ & Hsec & _ & Hfw & _).
  split.
  - destruct (Hsec ltac:(lia)) as (_ & _ & _ & ->). reflexivity.
  - destruct (Hfw eq_refl) as (_ & ->). reflexivity.
Defined.

(** C8 as stated fails: a version 3 machine built after a version 2 machine
    in the same process finds the descriptor the first call left, keeps its
    secure-boot flag, and so differs from the descriptor of a version 3
    machine built first; and the object whose address the first loader call
    received no longer has the content it was handed over with. *)
Lemma boot_descriptor_carried_over :
  let m := {| ram_size := 1 * GiB; smp_cpus := 4; firmware := None |} in
  exists p1 p2 fresh h,
    setup_boot proc_start m 2 (1 * GiB) = Done p1 /\
    setup_boot p1 m 3 (1 * GiB) = Done p2 /\
    setup_boot proc_start m 3 (1 * GiB) = Done fresh /\
    binfo p1 <> binfo proc_start /\
    BootInfo.secure_boot (binfo p2) = true /\
    BootInfo.secure_boot (binfo fresh) = false /\
    binfo p2 <> binfo fresh /\
    handoffs p1 = [h] /\
    deref p2 (handed_ref h) <> handed_content h.
Proof.
  intros m. do 4 eexists.
  split; [reflexivity|]. split; [reflexivity|]. split; [reflexivity|].
  split; [discriminate|]. split; [reflexivity|]. split; [reflexivity|].
  split; [discriminate|]. split; [reflexivity|]. discriminate.
Qed.

(** ** The secondary-core blobs *)

Lemma setup_boot_trampoline (p p' : Proc) (machine : MachineState)
    (version ram : Z) (roms : list Rom) :
  setup_boot p machine version ram = Done p' -> 2 <= version ->
  BootInfo.smp_loader_start (binfo p') = SMPBOOT_ADDR /\
  call_write_secondary_boot (binfo p') roms =
    if version =? 2 then write_smpboot (binfo p') roms
    else write_smpboot64 (binfo p') roms.
Proof.
  intros Hrun H2. pose proof (setup_boot_done_range _ _ _ _ _ Hrun) as Hv.
  table_cases Hv; try lia; setup_boot_inv Hrun; split; reflexivity.
Qed.

(** C4, as amended.  [write_smpboot] registers one blob, the same for every
    descriptor, at the address [smp_loader_start] of the descriptor (which
    [setup_boot] sets to 0x300 for version 2): twelve 32-bit words, 48
    bytes, namely eleven instructions followed by the constant 0x400000cc
    that the fifth instruction loads relative to the program counter.  After
    the copy into guest memory the bytes lie at that address. *)
Theorem write_smpboot_blob (info : arm_boot_info) (roms : list Rom)
    (mem : gmap Z Z) (i : nat) (x : Z) :
  bytes_of_words 4 smpboot !! i = Some x ->
  write_smpboot info roms =
    roms ++ [ {| rom_name := "raspi_smpboot";
                 rom_addr := BootInfo.smp_loader_start info;
                 rom_data := bytes_of_words 4 smpboot |} ] /\
  length smpboot = 12%nat /\
  sizeof_array 4 smpboot = 48 /\
  length (bytes_of_words 4 smpboot) = 48%nat /\
  smpboot !! 11%nat = Some 0x400000cc /\
  (exists ldr, smpboot !! 4%nat = Some ldr /\
     Z.shiftr ldr 12 = 0xe59f5 /\ 4 * 4 + 8 + Z.land ldr 0xfff = 4 * 11) /\
  rom_reset (write_smpboot info roms) mem
    !! (BootInfo.smp_loader_start info + Z.of_nat i) = Some x /\
  (forall p p' machine ram,
     setup_boot p machine 2 ram = Done p' ->
     BootInfo.smp_loader_start (binfo p') = SMPBOOT_ADDR /\
     SMPBOOT_ADDR = 0x300 /\
     call_write_secondary_boot (binfo p') roms = write_smpboot (binfo p') roms).
Proof.
  intros Hi. split; [reflexivity|]. split; [reflexivity|].
  split; [reflexivity|]. split; [reflexivity|]. split; [reflexivity|].
  split; [eexists; split; [reflexivity|]; split; reflexivity|].
  split.
  - rewrite write_smpboot_unfold, rom_reset_snoc. cbn [rom_addr rom_data].
    apply write_bytes_lookup_in. exact Hi.
  - intros p p' machine ram Hrun.
    destruct (setup_boot_trampoline p p' machine 2 ram roms Hrun ltac:(lia))
      as [Hstart Hcall].
    split; [exact Hstart|]. split; [reflexivity|exact Hcall].
Qed.

(** C4 as amended, at the first byte of the twelfth word. *)
Lemma write_smpboot_blob_constant_word :
  rom_reset (write_smpboot (assign_smp BootInfo.zero 2) []) ∅ !! (0x300 + 44)
  = Some 0xcc.
Proof.
  exact (proj1 (proj2 (proj2 (proj2 (proj2 (proj2 (proj2
    (write_smpboot_blob (assign_smp BootInfo.zero 2) [] ∅ 44 0xcc eq_refl)))))))).
Defined.

(** C4 as stated fails: the blob that [write_smpboot] registers has twelve
    words (48 bytes), not eleven. *)
Lemma write_smpboot_blob_has_12_words :
  exists r, write_smpboot BootInfo.zero [] = [r] /\
    length (rom_data r) = (4 * 12)%nat /\
    length (rom_data r) <> (4 * 11)%nat /\
    length smpboot <> 11%nat.
Proof.
  eexists. split; [reflexivity|]. split; [reflexivity|].
  split; vm_compute; discriminate.
Qed.

(** C5.  With the trampoline at 0x300 and the secure vectors at 0x400, the
    end of the 32-bit blob, 0x300 plus its size, does not pass 0x400; the
    two build-time conditions of [write_smpboot] are false, the function
    itself has no failing outcome, and the copy of the blob leaves every
    address from 0x400 on as it was. *)
Theorem smpboot_below_mvbar (info : arm_boot_info) (roms : list Rom)
    (mem : gmap Z Z) (a : Z) :
  BootInfo.smp_loader_start info = SMPBOOT_ADDR -> MVBAR_ADDR <= a ->
  SMPBOOT_ADDR = 0x300 /\ MVBAR_ADDR = 0x400 /\
  SMPBOOT_ADDR + sizeof_array 4 smpboot <= MVBAR_ADDR /\
  smpboot_overruns_mvbar = false /\
  boardsetup_misrelocated = false /\
  (exists r, write_smpboot info roms = roms ++ [r] /\
     rom_addr r = SMPBOOT_ADDR /\
     Z.of_nat (length (rom_data r)) = sizeof_array 4 smpboot) /\
  rom_reset (write_smpboot info roms) mem !! a = rom_reset roms mem !! a.
Proof.
  intros Hstart Ha.
  split; [reflexivity|]. split; [reflexivity|].
  split; [vm_compute; discriminate|].
  split; [reflexivity|]. split; [reflexivity|]. split.
  - eexists. split; [apply write_smpboot_unfold|].
    split; [exact Hstart | reflexivity].
  - rewrite write_smpboot_unfold, rom_reset_snoc. cbn [rom_addr rom_data].
    apply write_bytes_lookup_above. rewrite Hstart.
    change (Z.of_nat (length (bytes_of_words 4 smpboot))) with 48.
    unfold SMPBOOT_ADDR, MVBAR_ADDR in *. lia.
Qed.

(** C5, at the first secure vector. *)
Lemma smpboot_below_mvbar_first_vector :
  rom_reset (write_smpboot (assign_smp BootInfo.zero 2) []) ∅ !! 0x400 = None.
Proof.
  exact (proj2 (proj2 (proj2 (proj2 (proj2 (proj2
    (smpboot_below_mvbar (assign_smp BootInfo.zero 2) [] ∅ 0x400 eq_refl
       ltac:(vm_compute; discriminate)))))))).
Defined.



(** ** Further properties of [raspi_init] *)

Lemma setup_boot_outcome (p : Proc) (machine : MachineState) (version ram : Z) :
  0 <= version < 5 ->
  (exists p', setup_boot p machine version ram = Done p') \/
  (exists img, firmware machine = Some img /\
     setup_boot p machine version ram = Exit1 (FirmwareLoadFailed (image_path img))).
Proof.
  intros Hv.
  table_cases Hv; run_setup_boot; destruct (firmware machine) as [img|]; simpl;
    eauto; repeat case_match; simpl; eauto.
Qed.

Lemma supported_soc_type (version : Z) (b : BoardInfo) :
  supported version -> index bcm283x_boards version = Some b ->
  exists ty, mjoin (index processor_typename (chip (board_rev b))) = Some ty /\
    (version = 2 /\ ty = TYPE_BCM2836 \/
     version = 3 /\ ty = TYPE_BCM2837 \/
     version = 4 /\ ty = TYPE_BCM2838).
Proof.
  intros [-> | [-> | ->]] Hb; vm_compute in Hb; injection Hb as <-;
    eexists; (split; [reflexivity|]); auto.
Qed.

(** X1.  For every index of the board table, whatever the RAM size, the SD
    bus and the firmware, [raspi_init] ends in its result or in a reported
    exit, never in an out-of-bounds access or a NULL SoC type; for the two
    unfilled entries 0 and 1 it always stops at the RAM checks. *)
Theorem raspi_init_never_aborts (env : SocEnv) (p : Proc)
    (machine : MachineState) (version : Z) :
  0 <= version < 5 ->
  raspi_init env p machine version <> Abort /\
  (version < 2 ->
   raspi_init env p machine version = Exit1 (RamTooSmall 0) \/
   raspi_init env p machine version = Exit1 (RamTooLarge 0) \/
   raspi_init env p machine version = Exit1 RamNotPowerOf2).
Proof.
  intros Hv.
  assert (Hholes : version < 2 ->
    raspi_init env p machine version = Exit1 (RamTooSmall 0) \/
    raspi_init env p machine version = Exit1 (RamTooLarge 0) \/
    raspi_init env p machine version = Exit1 RamNotPowerOf2).
  { intros Hlt.
    assert (Hcase : version = 0 \/ version = 1) by lia.
    destruct Hcase as [-> | ->]; unfold raspi_init, check_ram_size; simpl;
      (destruct (ram_size machine <? 0) eqn:Hneg; [left; reflexivity|]);
      (destruct (ram_size machine >? 0) eqn:Hpos; [right; left; reflexivity|]);
      apply Z.ltb_ge in Hneg; rewrite Z.gtb_ltb in Hpos; apply Z.ltb_ge in Hpos;
      replace (ram_size machine) with 0 by lia; right; right; reflexivity. }
  split; [|exact Hholes].
  destruct (Z_lt_le_dec version 2) as [Hlt|Hge].
  - destruct (Hholes Hlt) as [-> | [-> | ->]]; discriminate.
  - assert (Hs : supported version) by (unfold supported; lia).
    destruct (index_supported version Hs) as [b Hb].
    destruct (supported_soc_type version b Hs Hb) as (ty & Hty & _).
    unfold raspi_init. rewrite Hb. simpl.
    destruct (check_ram_size b (ram_size machine)) as [[]| |] eqn:Hc; simpl;
      try discriminate.
    + rewrite Hty. simpl. destruct (has_sd_bus env); simpl; [|discriminate].
      destruct (setup_boot_outcome p machine version
                  (wrap_uint64 (ram_size machine - vcram_size env)) Hv)
        as [[p' ->] | (img & _ & ->)]; discriminate.
    + exfalso. revert Hc. unfold check_ram_size. repeat case_match; discriminate.
Qed.

(** X1, at the unfilled entry 1 with 1 GiB. *)
Lemma raspi_init_never_aborts_hole :
  raspi_init {| vcram_size := 0; has_sd_bus := true |} proc_start
    {| ram_size := 1 * GiB; smp_cpus := 4; firmware := None |} 1
  = Exit1 (RamTooLarge 0).
Proof.
  destruct (proj2 (raspi_init_never_aborts
    {| vcram_size := 0; has_sd_bus := true |} proc_start
    {| ram_size := 1 * GiB; smp_cpus := 4; firmware := None |} 1 ltac:(lia))
    ltac:(lia)) as [H | [H | H]]; [discriminate H | exact H | discriminate H].
Defined.

(** X2.  For a supported version, [raspi_init] reports a missing SD bus
    exactly when the RAM size passes the checks and the SoC has no SD bus,
    whatever firmware is given: the RAM reports come first, and the firmware
    is not looked at before the bus is found. *)
Theorem no_sd_bus_report (env : SocEnv) (p : Proc) (machine : MachineState)
    (version : Z) (b : BoardInfo) :
  supported version -> index bcm283x_boards version = Some b ->
  raspi_init env p machine version = Exit1 NoSdBus <->
  check_ram_size b (ram_size machine) = Done tt /\ has_sd_bus env = false.
Proof.
  intros Hs Hb.
  destruct (supported_soc_type version b Hs Hb) as (ty & Hty & _).
  assert (Hv : 0 <= version < 5) by (unfold supported in Hs; lia).
  unfold raspi_init. rewrite Hb. simpl.
  destruct (check_ram_size b (ram_size machine)) as [[]| |] eqn:Hc; simpl.
  - rewrite Hty. simpl. destruct (has_sd_bus env); simpl.
    + destruct (setup_boot_outcome p machine version
                  (wrap_uint64 (ram_size machine - vcram_size env)) Hv)
        as [[p' ->] | (img & _ & ->)]; simpl;
        split; try discriminate; intros [_ H]; discriminate.
    + split; auto.
  - split; [|intros [H _]; discriminate].
    intros He. exfalso. injection He as ->. revert Hc.
    unfold check_ram_size. repeat case_match; discriminate.
  - split; [discriminate | intros [H _]; discriminate].
Qed.

(** X2, at a Raspberry Pi 3 with a firmware image too large to load. *)
Lemma no_sd_bus_report_pi3 :
  raspi_init {| vcram_size := 0; has_sd_bus := false |} proc_start
    {| ram_size := 1 * GiB; smp_cpus := 4;
       firmware := Some {| image_path := "big.img"; image_size := 2 * GiB |} |} 3
  = Exit1 NoSdBus.
Proof.
  apply (proj2 (no_sd_bus_report {| vcram_size := 0; has_sd_bus := false |}
    proc_start
    {| ram_size := 1 * GiB; smp_cpus := 4;
       firmware := Some {| image_path := "big.img"; image_size := 2 * GiB |} |}
    3 _ ltac:(right; left; reflexivity) eq_refl)).
  split; reflexivity.
Defined.

Lemma raspi_init_done_soc (env : SocEnv) (p p' : Proc) (machine : MachineState)
    (version : Z) (soc : SocConfig) :
  raspi_init env p machine version = Done (soc, p') ->
  exists b ty, index bcm283x_boards version = Some b /\
    mjoin (index processor_typename (chip (board_rev b))) = Some ty /\
    soc = {| soc_type := ty; soc_ram := ram_size machine;
             enabled_cpus := smp_cpus machine;
             soc_board_rev := board_rev_code b (ram_size machine);
             sd_card_plugged := true |}.
Proof.
  unfold raspi_init. intros Hrun.
  destruct (index bcm283x_boards version) as [b|]; [|discriminate].
  exists b. simpl in Hrun.
  destruct (check_ram_size b (ram_size machine)) as [[]| |]; try discriminate.
  simpl in Hrun.
  destruct (mjoin (index processor_typename (chip (board_rev b)))) as [ty|];
    try discriminate.
  exists ty. simpl in Hrun. destruct (has_sd_bus env); try discriminate.
  simpl in Hrun.
  destruct (setup_boot p machine version _) as [q| |]; try discriminate.
  simpl in Hrun. injection Hrun as <- <-. auto.
Qed.

(** X3.  Whenever [raspi_init] runs to its end, the SoC type and the
    revision word it has set are one of six combinations: Pi 2 with 1 GiB
    (bcm2836, 0xa21041), Pi 3 with 1 GiB (bcm2837, 0xa02082), and Pi 4 with
    1, 2, 4 or 8 GiB (bcm2838, 0xa03111, 0xb03111, 0xc03111, 0xd03111); the
    SoC is given the machine's RAM size and CPU count. *)
Theorem raspi_init_identities (env : SocEnv) (p p' : Proc)
    (machine : MachineState) (version : Z) (soc : SocConfig) :
  supported version ->
  raspi_init env p machine version = Done (soc, p') ->
  In (version, ram_size machine, soc_type soc, soc_board_rev soc)
     [ (2, 1 * GiB, TYPE_BCM2836, 0xa21041);
       (3, 1 * GiB, TYPE_BCM2837, 0xa02082);
       (4, 1 * GiB, TYPE_BCM2838, 0xa03111);
       (4, 2 * GiB, TYPE_BCM2838, 0xb03111);
       (4, 4 * GiB, TYPE_BCM2838, 0xc03111);
       (4, 8 * GiB, TYPE_BCM2838, 0xd03111) ] /\
  soc_ram soc = ram_size machine /\
  enabled_cpus soc = smp_cpus machine /\
  sd_card_plugged soc = true.
Proof.
  intros Hs Hrun.
  destruct (raspi_init_done_soc _ _ _ _ _ _ Hrun) as (b' & ty & Hb' & Hty & ->).
  simpl. split; [|auto].
  destruct (raspi_init_done _ _ _ _ _ _ Hrun) as (b & Hb & Hc & Hrev & _).
  rewrite Hb in Hb'. injection Hb' as <-. clear Hrev.
  destruct ty; board_cases Hs Hb Hc; vm_compute in Hty; try discriminate;
    vm_compute; tauto.
Qed.

(** X3, at a Raspberry Pi 4 with 4 GiB. *)
Lemma raspi_init_identities_pi4 :
  exists soc p',
    raspi4_init {| vcram_size := 64 * MiB; has_sd_bus := true |} proc_start
      {| ram_size := 4 * GiB; smp_cpus := 4; firmware := None |}
    = Done (soc, p') /\
    soc_board_rev soc = 0xc03111.
Proof.
  eexists. eexists. split; [reflexivity|].
  destruct (raspi_init_identities
    {| vcram_size := 64 * MiB; has_sd_bus := true |} proc_start _
    {| ram_size := 4 * GiB; smp_cpus := 4; firmware := None |} 4 _
    ltac:(right; right; reflexivity) eq_refl) as [Hin _].
  reflexivity.
Defined.

(** X4.  On every path on which [raspi_init] computes the revision word the
    RAM size in mebibytes is between 1024 and 8192, so [clz64] is applied to
    a nonzero value, the shifted operand [63 - clz64 (...)] is between 10 and
    13, and the word fits an [int] without wrapping. *)
Theorem board_rev_computation_in_range (env : SocEnv) (p p' : Proc)
    (machine : MachineState) (version : Z) (soc : SocConfig) :
  supported version ->
  raspi_init env p machine version = Done (soc, p') ->
  exists b, index bcm283x_boards version = Some b /\
    1024 <= ram_size machine / MiB <= 8192 /\
    10 <= 63 - clz64 (ram_size machine / MiB) <= 13 /\
    soc_board_rev soc =
      Z.lor (Z.lor (Z.lor (Z.lor
        (Z.shiftl (63 - clz64 (ram_size machine / MiB)) 20)
        (Z.shiftl (manufacturer (board_rev b)) 16))
        (Z.shiftl (chip (board_rev b)) 12))
        (Z.shiftl (type (board_rev b)) 4))
        (Z.shiftl (revision (board_rev b)) 0) /\
    0 < soc_board_rev soc < 2 ^ 31.
Proof.
  intros Hs Hrun.
  destruct (raspi_init_done _ _ _ _ _ _ Hrun) as (b & Hb & Hc & Hrev & _).
  exists b. split; [exact Hb|]. rewrite Hrev.
  board_cases Hs Hb Hc; vm_compute; intuition congruence.
Qed.

(** X4, at a Raspberry Pi 4 with 8 GiB. *)
Lemma board_rev_computation_in_range_pi4 :
  63 - clz64 (8 * GiB / MiB) = 13.
Proof.
  destruct (board_rev_computation_in_range
    {| vcram_size := 0; has_sd_bus := true |} proc_start _
    {| ram_size := 8 * GiB; smp_cpus := 4; firmware := None |} 4 _
    ltac:(right; right; reflexivity) eq_refl) as (b & _ & _ & _ & _).
  reflexivity.
Defined.

Lemma boot_descriptor_is_static_fields (p p' : Proc) (machine : MachineState)
    (version ram : Z) :
  setup_boot p machine version ram = Done p' ->
  BootInfo.ram_size (binfo p') = ram /\
  BootInfo.nb_cpus (binfo p') = smp_cpus machine.
Proof.
  intros Hrun. pose proof (setup_boot_done_range _ _ _ _ _ Hrun) as Hv.
  table_cases Hv; setup_boot_inv Hrun; split; reflexivity.
Qed.

(** X5.  When [raspi_init] runs to its end, the boot descriptor carries the
    machine's CPU count and, as RAM size, the machine's RAM less the SoC's
    [vcram-size]; the subtraction is unsigned, so a [vcram-size] above the
    machine's RAM gives a size wrapped around 2^64. *)
Theorem usable_ram_size (env : SocEnv) (p p' : Proc)
    (machine : MachineState) (version : Z) (soc : SocConfig) :
  supported version -> 0 <= vcram_size env < 2 ^ 32 ->
  raspi_init env p machine version = Done (soc, p') ->
  BootInfo.nb_cpus (binfo p') = smp_cpus machine /\
  (vcram_size env <= ram_size machine ->
   BootInfo.ram_size (binfo p') = ram_size machine - vcram_size env) /\
  (ram_size machine < vcram_size env ->
   BootInfo.ram_size (binfo p') = 2 ^ 64 + ram_size machine - vcram_size env).
Proof.
  intros Hs Hvc Hrun.
  destruct (raspi_init_done _ _ _ _ _ _ Hrun) as (b & Hb & Hc & _ & Hboot).
  pose proof (boot_descriptor_is_static_fields p p' machine version _ Hboot)
    as (Hram & Hcpus).
  assert (Hrange : 2 ^ 30 <= ram_size machine <= 2 ^ 33).
  { destruct (accepted_cases _ _ _ Hs Hb Hc) as [-> | [_ [-> | [-> | ->]]]];
      vm_compute; split; discriminate. }
  split; [exact Hcpus|]. rewrite Hram. unfold wrap_uint64. split; intros Hcmp.
  - apply Z.mod_small. lia.
  - symmetry. apply (Z.mod_unique _ _ (-1)); lia.
Qed.

(** X5, at a Raspberry Pi 3 whose SoC keeps 64 MiB for the VideoCore. *)
Lemma usable_ram_size_pi3 :
  exists soc p',
    raspi3_init {| vcram_size := 64 * MiB; has_sd_bus := true |} proc_start
      {| ram_size := 1 * GiB; smp_cpus := 4; firmware := None |}
    = Done (soc, p') /\
    BootInfo.ram_size (binfo p') = 1 * GiB - 64 * MiB.
Proof.
  eexists. eexists. split; [reflexivity|].
  apply (usable_ram_size {| vcram_size := 64 * MiB; has_sd_bus := true |}
    proc_start _ {| ram_size := 1 * GiB; smp_cpus := 4; firmware := None |}
    3 _ ltac:(right; left; reflexivity)
    ltac:(vm_compute; split; [discriminate | reflexivity]) eq_refl).
  vm_compute. discriminate.
Defined.

(** ** Further properties of [setup_boot] *)

(** X6.  Running [setup_boot] again with the same machine, version and RAM
    size on the state the first run left reaches the loader again and leaves
    the descriptor as the first run left it. *)
Theorem setup_boot_again (p p1 : Proc) (machine : MachineState)
    (version ram : Z) :
  setup_boot p machine version ram = Done p1 ->
  exists p2, setup_boot p1 machine version ram = Done p2 /\
    binfo p2 = binfo p1.
Proof.
  intros Hrun. pose proof (setup_boot_done_range _ _ _ _ _ Hrun) as Hv.
  table_cases Hv; revert Hrun; run_setup_boot;
    destruct (firmware machine) as [img|]; simpl;
    repeat (case_match; simpl); intros Hrun; simplify_eq;
    first [congruence | eexists; split; reflexivity].
Qed.

(** X6, at a Raspberry Pi 2 with a firmware image. *)
Lemma setup_boot_again_pi2 :
  let m := {| ram_size := 1 * GiB; smp_cpus := 4;
              firmware := Some {| image_path := "kernel.img"; image_size := 4096 |} |} in
  exists p1 p2,
    setup_boot proc_start m 2 (1 * GiB) = Done p1 /\
    setup_boot p1 m 2 (1 * GiB) = Done p2 /\
    binfo p2 = binfo p1.
Proof.
  intros m. eexists.
  destruct (setup_boot_again proc_start _ m 2 (1 * GiB) eq_refl)
    as (p2 & Hrun & Heq).
  exists p2. split; [reflexivity|]. split; assumption.
Defined.

(** X7.  [setup_boot] only ever sets: a secure set-up flag, a secure-boot
    flag or a firmware-loaded flag that is set before a call is still set
    after it, and a hook that is installed before a call is still installed
    (possibly replaced by another one) after it. *)
Theorem setup_boot_never_clears (p p' : Proc) (machine : MachineState)
    (version ram : Z) :
  setup_boot p machine version ram = Done p' ->
  (BootInfo.secure_board_setup (binfo p) = true ->
   BootInfo.secure_board_setup (binfo p') = true) /\
  (BootInfo.secure_boot (binfo p) = true ->
   BootInfo.secure_boot (binfo p') = true) /\
  (BootInfo.firmware_loaded (binfo p) = true ->
   BootInfo.firmware_loaded (binfo p') = true) /\
  (is_Some (BootInfo.write_board_setup (binfo p)) ->
   is_Some (BootInfo.write_board_setup (binfo p'))) /\
  (is_Some (BootInfo.write_secondary_boot (binfo p)) ->
   is_Some (BootInfo.write_secondary_boot (binfo p'))) /\
  (is_Some (BootInfo.secondary_cpu_reset_hook (binfo p)) ->
   is_Some (BootInfo.secondary_cpu_reset_hook (binfo p'))).
Proof.
  intros Hrun. pose proof (setup_boot_done_range _ _ _ _ _ Hrun) as Hv.
  table_cases Hv; setup_boot_inv Hrun; simpl; repeat split; eauto.
Qed.

(** X7, at a Raspberry Pi 4 built after a Raspberry Pi 2. *)
Lemma setup_boot_never_clears_pi4_after_pi2 :
  let m := {| ram_size := 1 * GiB; smp_cpus := 4; firmware := None |} in
  exists p1 p2,
    setup_boot proc_start m 2 (1 * GiB) = Done p1 /\
    setup_boot p1 m 4 (1 * GiB) = Done p2 /\
    BootInfo.secure_boot (binfo p2) = true.
Proof.
  intros m. eexists. eexists. split; [reflexivity|]. split; [reflexivity|].
  apply (proj1 (proj2 (setup_boot_never_clears _ _ m 4 (1 * GiB) eq_refl))).
  reflexivity.
Defined.

(** ** Where the secondary cores start *)

Lemma byte_split (w : Z) :
  Z.lor (Z.land w 0xff) (Z.shiftl (Z.shiftr w 8) 8) = w.
Proof.
  apply Z.bits_inj'. intros i Hi.
  rewrite Z.lor_spec, Z.land_spec.
  change 0xff with (Z.ones 8).
  destruct (Z_lt_le_dec i 8) as [Hlo|Hhi].
  - rewrite Z.ones_spec_low by lia.
    rewrite Z.shiftl_spec_low by lia.
    rewrite andb_true_r, orb_false_r. reflexivity.
  - rewrite Z.ones_spec_high by lia.
    rewrite Z.shiftl_spec by lia. rewrite Z.shiftr_spec by lia.
    rewrite andb_false_r. simpl. f_equal. lia.
Qed.

Lemma read_le_of_le_bytes (n : nat) (w addr : Z) (mem : gmap Z Z) :
  0 <= w < 2 ^ (8 * Z.of_nat n) ->
  (forall j x, le_bytes n w !! j = Some x -> mem !! (addr + Z.of_nat j) = Some x) ->
  read_le n addr mem = Some w.
Proof.
  revert w addr. induction n as [|k IH]; intros w addr Hw Hmem.
  - simpl in *. f_equal. lia.
  - cbn [read_le le_bytes] in *.
    assert (H0 : mem !! addr = Some (Z.land w 0xff)).
    { rewrite <- (Z.add_0_r addr). apply (Hmem O). reflexivity. }
    rewrite H0. simpl.
    rewrite (IH (Z.shiftr w 8) (addr + 1)).
    + simpl. rewrite byte_split. reflexivity.
    + rewrite Z.shiftr_div_pow2 by lia.
      replace (8 * Z.of_nat (S k)) with (8 + 8 * Z.of_nat k) in Hw by lia.
      rewrite Z.pow_add_r in Hw by lia.
      split; [apply Z.div_pos; lia|].
      apply Z.div_lt_upper_bound; lia.
    + intros j x Hj.
      replace (addr + 1 + Z.of_nat j) with (addr + Z.of_nat (S j)) by lia.
      apply Hmem. exact Hj.
Qed.

(** X8.  For a version from 2 on, the reset hook installed by [setup_boot]
    sets the program counter of a secondary CPU to 0x300, and after the blobs
    of the installed [write_secondary_boot] are copied into guest memory the
    32-bit word at that address is the first instruction of the selected
    trampoline: 0xe1a0e00f for version 2, 0xd2801b05 otherwise. *)
Theorem reset_enters_trampoline (p p' : Proc) (machine : MachineState)
    (version ram pc : Z) (mem : gmap Z Z) :
  setup_boot p machine version ram = Done p' -> 2 <= version ->
  BootInfo.secondary_cpu_reset_hook (binfo p') = Some fn_reset_secondary /\
  reset_secondary (binfo p') pc = 0x300 /\
  read_le 4 (reset_secondary (binfo p') pc)
    (rom_reset (call_write_secondary_boot (binfo p') []) mem)
  = Some (if version =? 2 then 0xe1a0e00f else 0xd2801b05).
Proof.
  intros Hrun H2.
  destruct (setup_boot_trampoline p p' machine version ram [] Hrun H2)
    as [Hstart Hcall].
  assert (Hhook : BootInfo.secondary_cpu_reset_hook (binfo p') = Some fn_reset_secondary).
  { pose proof (setup_boot_done_range _ _ _ _ _ Hrun) as Hv.
    table_cases Hv; try lia; setup_boot_inv Hrun; reflexivity. }
  split; [exact Hhook|]. unfold reset_secondary. rewrite Hstart.
  split; [reflexivity|]. rewrite Hcall.
  destruct (version =? 2).
  - apply read_le_of_le_bytes; [vm_compute; split; [discriminate|reflexivity]|].
    intros j x Hj. rewrite write_smpboot_unfold, rom_reset_snoc.
    cbn [rom_addr rom_data]. rewrite Hstart.
    apply write_bytes_lookup_in.
    pose proof (lookup_lt_Some _ _ _ Hj) as Hlt.
    change (bytes_of_words 4 smpboot) with
      (le_bytes 4 0xe1a0e00f ++ bytes_of_words 4 (tail smpboot)).
    rewrite lookup_app_l by exact Hlt. exact Hj.
  - apply read_le_of_le_bytes; [vm_compute; split; [discriminate|reflexivity]|].
    intros j x Hj.
    apply (smpboot64_image (binfo p') _ mem Hstart (Permutation_refl _)).
    pose proof (lookup_lt_Some _ _ _ Hj) as Hlt.
    change (bytes_of_words 4 smpboot64) with
      (le_bytes 4 0xd2801b05 ++ bytes_of_words 4 (tail smpboot64)).
    rewrite lookup_app_l by exact Hlt. exact Hj.
Qed.

(** X8, at a Raspberry Pi 4. *)
Lemma reset_enters_trampoline_pi4 :
  exists p',
    setup_boot proc_start
      {| ram_size := 1 * GiB; smp_cpus := 4; firmware := None |} 4 (1 * GiB)
    = Done p' /\
    read_le 4 (reset_secondary (binfo p') 0)
      (rom_reset (call_write_secondary_boot (binfo p') []) ∅)
    = Some 0xd2801b05.
Proof.
  eexists. split; [reflexivity|].
  exact (proj2 (proj2 (reset_enters_trampoline proc_start _
    {| ram_size := 1 * GiB; smp_cpus := 4; firmware := None |} 4 (1 * GiB) 0 ∅
    eq_refl ltac:(lia)))).
Defined.

(** X9.  For a version from 2 on, every blob that the installed
    [write_secondary_boot] registers starts at a non-negative address and
    ends at or before the secure vectors at 0x400, hence before the board
    set-up code and before the address at which a firmware image is loaded;
    and two different blobs of the same call do not overlap. *)
Theorem trampoline_regions (p p' : Proc) (machine : MachineState)
    (version ram : Z) (r1 r2 : Rom) :
  setup_boot p machine version ram = Done p' -> 2 <= version ->
  In r1 (call_write_secondary_boot (binfo p') []) ->
  In r2 (call_write_secondary_boot (binfo p') []) ->
  0 <= rom_addr r1 /\
  rom_end r1 <= MVBAR_ADDR /\
  MVBAR_ADDR < BOARDSETUP_ADDR /\
  BOARDSETUP_ADDR < (if version >=? 3 then FIRMWARE_ADDR_3 else FIRMWARE_ADDR_2) /\
  (r1 = r2 \/ roms_disjoint r1 r2).
Proof.
  intros Hrun H2 Hin1 Hin2.
  destruct (setup_boot_trampoline p p' machine version ram [] Hrun H2)
    as [Hstart Hcall].
  rewrite Hcall in Hin1, Hin2.
  assert (Hfw : BOARDSETUP_ADDR <
            (if version >=? 3 then FIRMWARE_ADDR_3 else FIRMWARE_ADDR_2))
    by (destruct (version >=? 3); reflexivity).
  destruct (version =? 2).
  - rewrite write_smpboot_unfold, Hstart in Hin1, Hin2. simpl in Hin1, Hin2.
    destruct Hin1 as [<- | []]. destruct Hin2 as [<- | []].
    split; [vm_compute; discriminate|]. split; [vm_compute; discriminate|].
    split; [reflexivity|]. split; [exact Hfw|]. left. reflexivity.
  - rewrite write_smpboot64_unfold, Hstart in Hin1, Hin2. simpl in Hin1, Hin2.
    destruct Hin1 as [<- | [<- | []]]; destruct Hin2 as [<- | [<- | []]];
      (split; [vm_compute; discriminate|]); (split; [vm_compute; discriminate|]);
      (split; [reflexivity|]); (split; [exact Hfw|]);
      first [ left; reflexivity
            | right; left; vm_compute; discriminate
            | right; right; vm_compute; discriminate ].
Qed.

(** X9, at a Raspberry Pi 3: the instruction blob and the spin table. *)
Lemma trampoline_regions_pi3 :
  roms_disjoint
    {| rom_name := "raspi_smpboot"; rom_addr := 0x300;
       rom_data := bytes_of_words 4 smpboot64 |}
    {| rom_name := "raspi_spintables"; rom_addr := 0xd8;
       rom_data := bytes_of_words 8 spintables |}.
Proof.
  destruct (trampoline_regions proc_start _
    {| ram_size := 1 * GiB; smp_cpus := 4; firmware := None |} 3 (1 * GiB)
    {| rom_name := "raspi_smpboot"; rom_addr := 0x300;
       rom_data := bytes_of_words 4 smpboot64 |}
    {| rom_name := "raspi_spintables"; rom_addr := 0xd8;
       rom_data := bytes_of_words 8 spintables |}
    eq_refl ltac:(lia) ltac:(left; reflexivity) ltac:(right; left; reflexivity))
    as (_ & _ & _ & _ & [Heq | Hdis]).
  - discriminate Heq.
  - exact Hdis.
Defined.

(** ** The relocated instruction and the machine classes *)

(** X10.  The second word of [smpboot] is 0xe3a0fe00 plus the board set-up
    address shifted right by 4.  For a non-negative address, the second
    build-time condition of [write_smpboot] is false exactly when that sum
    keeps the upper 24 bits 0xe3a0fe and its low byte, shifted left by 4,
    gives the address back; it is false for the address the file uses. *)
Theorem boardsetup_relocation (boardsetup_addr : Z) :
  0 <= boardsetup_addr ->
  (misrelocated boardsetup_addr = false <->
   Z.shiftr (mov_pc_boardsetup boardsetup_addr) 8 = 0xe3a0fe /\
   Z.shiftl (Z.land (mov_pc_boardsetup boardsetup_addr) 0xff) 4 = boardsetup_addr) /\
  smpboot !! 1%nat = Some (mov_pc_boardsetup BOARDSETUP_ADDR) /\
  boardsetup_misrelocated = misrelocated BOARDSETUP_ADDR /\
  misrelocated BOARDSETUP_ADDR = false.
Proof.
  intros Hpos. split; [|repeat split].
  unfold misrelocated, mov_pc_boardsetup.
  change 0xf with (Z.ones 4). change 0xff with (Z.ones 8).
  rewrite !Z.land_ones by lia.
  rewrite !Z.shiftr_div_pow2, Z.shiftl_mul_pow2 by lia.
  change (2 ^ 4) with 16. change (2 ^ 8) with 256.
  rewrite orb_false_iff, negb_false_iff, Z.eqb_eq.
  rewrite Z.geb_leb, Z.leb_gt.
  split.
  - intros [Hmod Hlt].
    assert (Hq : 0 <= boardsetup_addr / 16) by (apply Z.div_pos; lia).
    pose proof (Z.div_mod boardsetup_addr 16 ltac:(lia)) as Hdm.
    split.
    + symmetry.
      apply (Z.div_unique_pos _ 256 0xe3a0fe (boardsetup_addr / 16)); lia.
    + rewrite (Z.add_comm _ (boardsetup_addr / 16)).
      change 0xe3a0fe00 with (0xe3a0fe * 256).
      rewrite Z_mod_plus_full, Z.mod_small by lia. lia.
  - intros [Hhi Hlo].
    assert (Hq : 0 <= boardsetup_addr / 16) by (apply Z.div_pos; lia).
    pose proof (Z.mod_pos_bound (0xe3a0fe00 + boardsetup_addr / 16) 256 ltac:(lia))
      as Hb.
    pose proof (Z.div_mod (0xe3a0fe00 + boardsetup_addr / 16) 256 ltac:(lia)) as Hdm.
    rewrite Hhi in Hdm.
    split.
    + rewrite <- Hlo at 1. apply Z_mod_mult.
    + lia.
Qed.

(** X10, at the address 0x420 that the file uses. *)
Lemma boardsetup_relocation_0x420 :
  Z.shiftl (Z.land (mov_pc_boardsetup 0x420) 0xff) 4 = 0x420.
Proof.
  apply (proj1 (boardsetup_relocation 0x420 ltac:(lia))). reflexivity.
Defined.

(** X11.  Every machine class the file defines (raspi2 in every build, raspi3
    and raspi4 on AArch64 targets) fixes the minimum, maximum and default CPU
    count to the same number and uses the SD interface by default, and its
    own defaults are a configuration its [init] accepts: with the default
    RAM size, the default CPU count, no firmware and an SD bus, [init] runs
    to its end and hands the CPU count to the SoC and to the boot
    descriptor. *)
Theorem default_machine_boots (BCM283X_NCPUS : Z) (target_aarch64 : bool)
    (name : string) (class_init : MachineClass -> MachineClass)
    (mc0 : MachineClass) (env : SocEnv) (p : Proc) :
  In (name, class_init) (defined_machines BCM283X_NCPUS target_aarch64) ->
  has_sd_bus env = true ->
  let mc := class_init mc0 in
  min_cpus mc = BCM283X_NCPUS /\
  max_cpus mc = BCM283X_NCPUS /\
  default_cpus mc = BCM283X_NCPUS /\
  block_default_type mc = IF_SD /\
  (no_parallel mc = 1 /\ no_floppy mc = 1 /\ no_cdrom mc = 1) /\
  exists f soc p',
    init mc = Some f /\
    f env p {| ram_size := default_ram_size mc;
               smp_cpus := default_cpus mc;
               firmware := None |} = Done (soc, p') /\
    enabled_cpus soc = BCM283X_NCPUS /\
    BootInfo.nb_cpus (binfo p') = BCM283X_NCPUS.
Proof.
  intros Hin Hbus mc. subst mc.
  assert (Hcases :
    class_init = raspi2_machine_init BCM283X_NCPUS \/
    class_init = raspi3_machine_init BCM283X_NCPUS \/
    class_init = raspi4_machine_init BCM283X_NCPUS).
  { destruct target_aarch64; simpl in Hin.
    - destruct Hin as [H | [H | [H | []]]]; injection H as _ <-; auto.
    - destruct Hin as [H | []]; injection H as _ <-; auto. }
  destruct Hcases as [-> | [-> | ->]]; simpl;
    (split; [reflexivity|]); (split; [reflexivity|]); (split; [reflexivity|]);
    (split; [reflexivity|]); (split; [auto|]);
    eexists; eexists; eexists; (split; [reflexivity|]);
    unfold raspi2_init, raspi3_init, raspi4_init, raspi_init; simpl;
    rewrite Hbus; simpl; (split; [reflexivity|]); split; reflexivity.
Qed.

(** X11, for raspi3 on an AArch64 target with four CPUs. *)
Lemma default_machine_boots_raspi3 :
  exists soc p',
    raspi3_init {| vcram_size := 0; has_sd_bus := true |} proc_start
      {| ram_size := 1 * GiB; smp_cpus := 4; firmware := None |} = Done (soc, p') /\
    enabled_cpus soc = 4.
Proof.
  destruct (default_machine_boots 4 true "raspi3" (raspi3_machine_init 4)
    (raspi3_machine_init 4 (raspi2_machine_init 4
       {| desc := None; init := None; block_default_type := IF_NONE;
          no_parallel := 0; no_floppy := 0; no_cdrom := 0;
          max_cpus := 1; min_cpus := 1; default_cpus := 1;
          default_ram_size := 0;
          ignore_memory_transaction_failures := false |}))
    {| vcram_size := 0; has_sd_bus := true |} proc_start
    ltac:(right; left; reflexivity) eq_refl)
    as (_ & _ & _ & _ & _ & f & soc & p' & Hf & Hrun & Hcpus & _).
  injection Hf as <-. exists soc, p'. split; [exact Hrun | exact Hcpus].
Defined.
